(** * Task supervision core of the orchestrate-auto-dev skill

    A shallow embedding of the supervision code under
    [plugins/skills/orchestrate-auto-dev/_common]:

    - [logger.py]          the [Logger] class (which methods exist);
    - [spawner.py]         the enums and records, the error classifier, the
                           escalation policy, [spawn_blocking],
                           [_execute_task] and [BackgroundTask];
    - [retry_handler.py]   [RetryHandler.retry] and [_calculate_delay];
    - [health_checker.py]  [HealthChecker.check_health].

    Conventions.  Python [int] is [Z].  Python [float] readings (clock
    values, CPU percentages, delays) are the rationals they denote, [Q],
    compared with the order of [Q]; rounding, infinities and NaN are outside
    the model.  Text is [string] over 8-bit characters, and [str.lower] maps
    the letters A..Z only.  An exception is a value of type [exn]; the model
    covers instances of [Exception] (what [except Exception] catches), not
    interpreter-exit signals such as [KeyboardInterrupt].  A call that may
    raise returns an [outcome]. *)

From Stdlib Require Import Ascii String QArith Qminmax Qpower.
From stdpp Require Import base decidable option list strings pretty gmap.

Local Open Scope string_scope.
Local Open Scope list_scope.
Local Open Scope Z_scope.

(** ** Exceptions and outcomes *)

(** An instance of [Exception]: the name of its class, the names of the
    classes between it and [Exception] in the method resolution order, and
    the text [str(e)]. *)
Record exn := Exn {
  exn_class : string;
  exn_bases : list string;
  exn_text : string;
}.

(** [isinstance(e, cls)] for a class given by name. *)
Definition isinstance (e : exn) (cls : string) : bool :=
  bool_decide (cls = "Exception" ∨ cls = "BaseException" ∨ cls = "object"
               ∨ cls = exn_class e ∨ cls ∈ exn_bases e).

(** [isinstance(e, classes)] for a tuple of classes, as an [except] clause
    with a tuple does. *)
Definition isinstance_any (e : exn) (classes : list string) : bool :=
  existsb (isinstance e) classes.

Definition AttributeError (msg : string) : exn := Exn "AttributeError" [] msg.
Definition ValueError (msg : string) : exn := Exn "ValueError" [] msg.
Definition RuntimeError (msg : string) : exn := Exn "RuntimeError" [] msg.

(** What a call does: it returns a value or raises.  [StillRunning] is the
    answer of a bounded run of a polling loop whose bound was reached while
    the loop condition still held. *)
Inductive outcome (A : Type) : Type :=
  | Returned (a : A)
  | Raised (e : exn)
  | StillRunning.
Arguments Returned {A} a.
Arguments Raised {A} e.
Arguments StillRunning {A}.

(** [time.sleep(d)] raises [ValueError] on a negative argument. *)
Definition py_sleep (d : Q) : option exn :=
  if Qlt_le_dec d 0 then Some (ValueError "sleep length must be non-negative")
  else None.

(** ** logger.py *)

Module Logger.

(** The methods that can be called on a [Logger]: those its class defines.
    The class has neither a method [warning] nor a [__getattr__], so calling
    any other name raises [AttributeError]. *)
Definition methods : list string :=
  [ "for_story"; "for_stage"; "for_workflow"; "_should_log";
    "_format_message"; "_write"; "debug"; "info"; "warn"; "error";
    "stage_start"; "stage_end"; "set_level"; "separator";
    "write_to_file_only" ].

(** [logger.<m>(...)] on a logger whose class defines [table]: nothing is
    raised when the method exists, [AttributeError] otherwise.  The text
    written is not part of the model. *)
Definition call_on (table : list string) (m : string) : option exn :=
  if bool_decide (m ∈ table) then None
  else Some (AttributeError
               ("'Logger' object has no attribute '" +:+ m +:+ "'")).

Definition call : string → option exn := call_on methods.

End Logger.

(** ** spawner.py: enumerations *)

Inductive TaskStatus :=
  PENDING | RUNNING | COMPLETED | FAILED | TIMEOUT | CRITICAL_ERROR.

Inductive ErrorSeverity := RECOVERABLE | CRITICAL | FATAL.

Inductive EscalationAction := CONTINUE | STOP_PIPELINE | RETRY | ASK_HUMAN.

Global Instance TaskStatus_eq_dec : EqDecision TaskStatus.
Proof. solve_decision. Defined.
Global Instance ErrorSeverity_eq_dec : EqDecision ErrorSeverity.
Proof. solve_decision. Defined.
Global Instance EscalationAction_eq_dec : EqDecision EscalationAction.
Proof. solve_decision. Defined.

(** The [value] of each member ([EscalationAction] mixes in [str]). *)
Definition action_value (a : EscalationAction) : string :=
  match a with
  | CONTINUE => "continue"
  | STOP_PIPELINE => "stop_pipeline"
  | RETRY => "retry"
  | ASK_HUMAN => "ask_human"
  end.

(** ** Text helpers: [str.lower] and the [in] operator *)

Definition is_upper (c : ascii) : bool :=
  let n := N_of_ascii c in ((65 <=? n) && (n <=? 90))%N.

Definition lower_char (c : ascii) : ascii :=
  if is_upper c then ascii_of_N (N_of_ascii c + 32) else c.

Fixpoint lower (s : string) : string :=
  match s with
  | EmptyString => EmptyString
  | String c s' => String (lower_char c) (lower s')
  end.

Fixpoint starts_with (p s : string) : bool :=
  match p, s with
  | EmptyString, _ => true
  | String _ _, EmptyString => false
  | String a p', String b s' => if decide (a = b) then starts_with p' s' else false
  end.

(** [p in s] for two [str]: [p] occurs as a contiguous run of [s]. *)
Fixpoint py_in (p s : string) : bool :=
  starts_with p s ||
  match s with
  | EmptyString => false
  | String _ s' => py_in p s'
  end.

(** [s[:n]] for a non-negative [n]. *)
Fixpoint take_str (n : nat) (s : string) : string :=
  match n, s with
  | O, _ => EmptyString
  | _, EmptyString => EmptyString
  | S n', String c s' => String c (take_str n' s')
  end.

(** ** spawner.py: [ClaudeSpawner._classify_error_severity] *)

Definition critical_patterns : list string :=
  [ "API rate limit"; "Authentication failed"; "Permission denied";
    "Out of memory"; "Disk full"; "Network unreachable";
    "Internal server error"; "CRITICAL" ].

Definition recoverable_patterns : list string :=
  [ "Connection timeout"; "Temporary failure";
    "Resource temporarily unavailable"; "Try again" ].

(** The two [for pattern in ...: if pattern.lower() in error_lower] loops:
    does some pattern of the list occur in the lowered text? *)
Fixpoint any_pattern_in (patterns : list string) (error_lower : string) : bool :=
  match patterns with
  | [] => false
  | pattern :: rest =>
      if py_in (lower pattern) error_lower then true
      else any_pattern_in rest error_lower
  end.

Definition _classify_error_severity
    (exit_code : Z) (error_output : string) (status : TaskStatus)
  : ErrorSeverity :=
  if decide (status = TIMEOUT) then FATAL
  else
    let error_lower := lower error_output in
    if any_pattern_in critical_patterns error_lower then CRITICAL
    else if any_pattern_in recoverable_patterns error_lower then RECOVERABLE
    else if exit_code =? 0 then RECOVERABLE
    else if exit_code <? 0 then CRITICAL
    else if exit_code >=? 100 then CRITICAL
    else RECOVERABLE.

(** *** The reference definition of the classifier, from the specification *)

(** Two characters are the same letter up to case: they are equal, or one is
    an upper-case letter and the other its lower-case form. *)
Definition same_letter (a b : ascii) : bool :=
  bool_decide (a = b)
  || (is_upper a && bool_decide (N_of_ascii b = N_of_ascii a + 32)%N)
  || (is_upper b && bool_decide (N_of_ascii a = N_of_ascii b + 32)%N).

(** [p] matches at the head of [s], ignoring case. *)
Fixpoint occurs_here_ci (p s : string) : bool :=
  match p, s with
  | EmptyString, _ => true
  | String _ _, EmptyString => false
  | String a p', String b s' => same_letter a b && occurs_here_ci p' s'
  end.

(** [s] contains [p], case-insensitively. *)
Fixpoint contains_ci (s p : string) : bool :=
  occurs_here_ci p s ||
  match s with
  | EmptyString => false
  | String _ s' => contains_ci s' p
  end.

Definition reference_severity
    (c : Z) (s : string) (st : TaskStatus) : ErrorSeverity :=
  if decide (st = TIMEOUT) then FATAL
  else if existsb (contains_ci s) critical_patterns then CRITICAL
  else if existsb (contains_ci s) recoverable_patterns then RECOVERABLE
  else if decide (c = 0) then RECOVERABLE
  else if decide (c < 0) then CRITICAL
  else if decide (100 ≤ c) then CRITICAL
  else RECOVERABLE.

(** ** Numbers *)

(** [a < b] and [a <= b] on clock readings and other [float] values. *)
Definition Qltb (a b : Q) : bool := negb (Qle_bool b a).
Definition Qleb (a b : Q) : bool := Qle_bool a b.

(** [min(a, b)] of Python: the first argument unless the second is strictly
    smaller. *)
Definition py_min (a b : Q) : Q := if Qltb b a then b else a.

(** [x or d] on an optional [int]: [None] and [0] are falsy. *)
Definition int_or (x : option Z) (d : Z) : Z :=
  match x with
  | Some v => if v =? 0 then d else v
  | None => d
  end.

(** [x if x else d] on an optional [str]: [None] and the empty text are falsy. *)
Definition str_or (x : option string) (d : string) : string :=
  match x with
  | Some v => if bool_decide (v = "") then d else v
  | None => d
  end.

(** [s if s else None]. *)
Definition str_or_none (s : string) : option string :=
  if bool_decide (s = "") then None else Some s.

(** ** spawner.py: records *)

Module CriticalError.
Record t := Build {
  message : string;
  severity : ErrorSeverity;
  task_id : string;
  stage_name : string;
  error_details : option string;
  suggested_action : option string;
  timestamp : Q;
}.
End CriticalError.

Module TaskResult.
Record t := Build {
  success : bool;
  output : string;
  error : option string;
  exit_code : Z;
  duration_seconds : Q;
  status : TaskStatus;
  error_severity : option ErrorSeverity;
  critical_error : option CriticalError.t;
}.
End TaskResult.

(** ** spawner.py: the escalation policy *)

(** A value that reaches the escalation code as an "action".  The type hint
    says [EscalationAction], Python does not enforce it: the value is a
    member of the enum, or some text (equal to a member exactly when it is
    that member's value, since the enum mixes in [str]), or any other
    object.  [has_value] tells whether the object has a [value] attribute. *)
Inductive pyaction :=
  | Member (a : EscalationAction)
  | Text (s : string) (has_value : bool)
  | Foreign (has_value : bool).

(** [action == EscalationAction.<a>]. *)
Definition action_eq (v : pyaction) (a : EscalationAction) : bool :=
  match v with
  | Member b => bool_decide (b = a)
  | Text s _ => bool_decide (s = action_value a)
  | Foreign _ => false
  end.

Definition has_value_attr (v : pyaction) : bool :=
  match v with
  | Member _ => true
  | Text _ h => h
  | Foreign h => h
  end.

(** What a call of the [on_critical_error] callback does. *)
Inductive callback_result :=
  | CbReturns (v : pyaction)
  | CbRaises (e : exn).

(** The callback is caller code: it is given the error and, holding the
    spawner, can read [get_critical_errors()] as it stands when it is called;
    that history is its first argument here.  It does not write the
    spawner. *)
Definition callback : Type :=
  list CriticalError.t → CriticalError.t → callback_result.

Module ClaudeSpawner.
Record t := Build {
  timeout_seconds : Z;
  on_critical_error : option callback;
  default_escalation : EscalationAction;
  _all_spawned_processes : list Z;
  _critical_errors : list CriticalError.t;
}.

Definition with_critical_errors (sp : t) (h : list CriticalError.t) : t :=
  Build (timeout_seconds sp) (on_critical_error sp) (default_escalation sp)
        (_all_spawned_processes sp) h.

Definition with_spawned (sp : t) (ps : list Z) : t :=
  Build (timeout_seconds sp) (on_critical_error sp) (default_escalation sp)
        ps (_critical_errors sp).
End ClaudeSpawner.

Import ClaudeSpawner.

(** The [Logger] methods that spawner.py calls on [self.logger]. *)
Definition spawner_log_calls : list string :=
  [ "debug"; "info"; "warn"; "error"; "separator"; "write_to_file_only" ].

(** [ClaudeSpawner._handle_critical_error]: log, store in the history, then
    decide.  The [try] around the callback also covers the line that logs
    [action.value], so a returned object without that attribute falls
    through to the default like a raising callback. *)
Definition _handle_critical_error (sp : ClaudeSpawner.t) (error : CriticalError.t)
  : pyaction * ClaudeSpawner.t :=
  let sp' := with_critical_errors sp (_critical_errors sp ++ [error]) in
  let by_default := (Member (default_escalation sp'), sp') in
  match on_critical_error sp' with
  | Some handler =>
      match handler (_critical_errors sp') error with
      | CbReturns action =>
          if has_value_attr action then (action, sp') else by_default
      | CbRaises _ => by_default
      end
  | None => by_default
  end.

(** [ClaudeSpawner._execute_escalation_action]. *)
Definition _execute_escalation_action
    (action : pyaction) (task_result : TaskResult.t) (task_id : string) : bool :=
  if action_eq action CONTINUE then true
  else if action_eq action STOP_PIPELINE then false
  else if action_eq action RETRY then true
  else if action_eq action ASK_HUMAN then false
  else false.

(** [ClaudeSpawner.get_critical_errors]: a copy of the history. *)
Definition get_critical_errors (sp : ClaudeSpawner.t) : list CriticalError.t :=
  _critical_errors sp.

(** ** spawner.py: what the outside world does during one spawn *)

(** One turn of the loop [while process.poll() is None]: the clock reading
    taken after the sleep, or a fault raised somewhere in the turn. *)
Inductive poll_event :=
  | PollRunning (now : Q)
  | PollFault (e : exn).

(** The process, the file system and the clock as one spawn observes them.
    [w_setup] is what the statements before the [try] do: [temp_dir.mkdir]
    and the two [open] of the output files raise (a missing project root, a
    [/] in the task id, no permission), or they succeed.  [w_polls] are the
    turns during which [poll()] still answers [None]; after them the process
    has exited with [w_returncode].  Inside the [try] exceptions are placed
    at the launch and in the turns of the loop; killing the process tree and
    closing and reading the output files are taken to succeed. *)
Record world := {
  w_start : Q;               (* time.time() at the start of the spawn *)
  w_stamp : Z;               (* int(time.time()) in the blocking task id *)
  w_setup : option exn;      (* temp_dir.mkdir(...) or open(...) raises *)
  w_popen : exn + Z;         (* subprocess.Popen raises, or gives a pid *)
  w_polls : list poll_event;
  w_returncode : Z;
  w_stdout : string;         (* what _read_and_cleanup reads back *)
  w_stderr : string;
  w_end : Q;                 (* time.time() when the duration is taken *)
  w_timestamp : Q;           (* time.time() in the CriticalError *)
}.

Inductive monitor_result :=
  | Exited
  | TimedOut (elapsed : Q)
  | Faulted (e : exn).

(** The polling loop of [spawn_blocking] and of [_execute_task], up to the
    point where it is left: the process has exited, [elapsed > timeout] was
    seen, or an exception was raised. *)
Fixpoint monitor (start_time : Q) (timeout : Z) (polls : list poll_event)
  : monitor_result :=
  match polls with
  | [] => Exited
  | PollFault e :: _ => Faulted e
  | PollRunning now :: rest =>
      let elapsed := (now - start_time)%Q in
      if Qltb (inject_Z timeout) elapsed then TimedOut elapsed
      else monitor start_time timeout rest
  end.

(** [list.remove(x)] after the membership test: the first occurrence goes. *)
Fixpoint remove_first (x : Z) (l : list Z) : list Z :=
  match l with
  | [] => []
  | y :: l' => if decide (x = y) then l' else y :: remove_first x l'
  end.

(** ** spawner.py: [ClaudeSpawner.spawn_blocking] *)

(** The four lines that end each failure path of [spawn_blocking]:
    [_handle_critical_error], then [_execute_escalation_action] on the
    result, then [raise RuntimeError(...)] unless the pipeline continues. *)
Definition escalate
    (sp : ClaudeSpawner.t) (critical_error : CriticalError.t)
    (result : TaskResult.t) (task_id stop_message : string)
  : (exn + TaskResult.t) * ClaudeSpawner.t :=
  let '(escalation_action, sp') := _handle_critical_error sp critical_error in
  let should_continue :=
    _execute_escalation_action escalation_action result task_id in
  if should_continue then (inr result, sp')
  else (inl (RuntimeError stop_message), sp').

Definition timeout_message (actual_timeout : Z) : string :=
  "Task timed out after " +:+ pretty actual_timeout +:+ "s".

(** The branch [if elapsed > actual_timeout] of the polling loop. *)
Definition blocking_timeout_path
    (sp : ClaudeSpawner.t) (actual_timeout : Z)
    (task_label task_id : string) (w : world)
  : (exn + TaskResult.t) * ClaudeSpawner.t :=
  let stdout_content := w_stdout w in
  let stderr_content := w_stderr w in
  let duration := (w_end w - w_start w)%Q in
  let critical_error :=
    CriticalError.Build
      (timeout_message actual_timeout)
      FATAL
      task_id
      task_label
      (Some (if bool_decide (stderr_content = "")
             then take_str 500 stdout_content
             else "stdout: " +:+ take_str 500 stdout_content +:+
                  ", stderr: " +:+ take_str 500 stderr_content))
      (Some "Increase timeout or optimize task complexity")
      (w_timestamp w) in
  let result :=
    TaskResult.Build
      false
      stdout_content
      (Some (timeout_message actual_timeout +:+ ". stderr: " +:+ stderr_content))
      (-1)
      duration
      TIMEOUT
      (Some FATAL)
      (Some critical_error) in
  escalate sp critical_error result task_id
           ("Pipeline stopped due to timeout in " +:+ task_label).

(** The code after the loop: the process has exited. *)
Definition blocking_exit_path
    (sp : ClaudeSpawner.t) (pid : Z)
    (task_label task_id : string) (w : world)
  : (exn + TaskResult.t) * ClaudeSpawner.t :=
  let exit_code := w_returncode w in
  let sp := with_spawned sp (remove_first pid (_all_spawned_processes sp)) in
  let stdout_content := w_stdout w in
  let stderr_content := w_stderr w in
  let duration := (w_end w - w_start w)%Q in
  let plain (error_severity : option ErrorSeverity) :=
    TaskResult.Build
      (exit_code =? 0) stdout_content (str_or_none stderr_content)
      exit_code duration COMPLETED error_severity None in
  if exit_code =? 0 then (inr (plain None), sp)
  else
    let error_severity :=
      _classify_error_severity exit_code stderr_content FAILED in
    if bool_decide (error_severity = CRITICAL ∨ error_severity = FATAL) then
      let critical_error :=
        CriticalError.Build
          ("Task failed with exit code " +:+ pretty exit_code)
          error_severity
          task_id
          task_label
          (if bool_decide (stderr_content = "") then None
           else Some (take_str 1000 stderr_content))
          (Some "Review error logs and retry or fix the issue")
          (w_timestamp w) in
      let result :=
        TaskResult.Build
          false stdout_content (str_or_none stderr_content)
          exit_code duration
          (if decide (error_severity = CRITICAL) then CRITICAL_ERROR else FAILED)
          (Some error_severity)
          (Some critical_error) in
      escalate sp critical_error result task_id
               ("Pipeline stopped due to critical error in " +:+ task_label +:+
                ": " +:+ CriticalError.message critical_error)
    else (inr (plain (Some error_severity)), sp).

(** The body of the [try] statement. *)
Definition blocking_try
    (sp : ClaudeSpawner.t) (actual_timeout : Z)
    (task_label task_id : string) (w : world)
  : (exn + TaskResult.t) * ClaudeSpawner.t :=
  match w_popen w with
  | inl e => (inl e, sp)
  | inr pid =>
      let sp := with_spawned sp (_all_spawned_processes sp ++ [pid]) in
      match monitor (w_start w) actual_timeout (w_polls w) with
      | Faulted e => (inl e, sp)
      | TimedOut _ => blocking_timeout_path sp actual_timeout task_label task_id w
      | Exited => blocking_exit_path sp pid task_label task_id w
      end
  end.

(** The clause [except Exception as e].  It encloses the whole [try] body, so
    that it also receives the [RuntimeError] that the body raises when an
    escalation inside it decides to stop. *)
Definition blocking_except
    (sp : ClaudeSpawner.t) (e : exn)
    (task_label task_id : string) (w : world)
  : outcome TaskResult.t * ClaudeSpawner.t :=
  let duration := (w_end w - w_start w)%Q in
  let critical_error :=
    CriticalError.Build
      ("Exception during task execution: " +:+ exn_class e)
      CRITICAL
      task_id
      task_label
      (Some (exn_text e))
      (Some "Review logs and fix the underlying issue")
      (w_timestamp w) in
  let result :=
    TaskResult.Build
      false "" (Some (exn_text e)) (-1) duration
      CRITICAL_ERROR (Some CRITICAL) (Some critical_error) in
  match escalate sp critical_error result task_id
          ("Pipeline stopped due to exception in " +:+ task_label +:+ ": " +:+
           exn_text e) with
  | (inr r, sp') => (Returned r, sp')
  | (inl stop, sp') => (Raised stop, sp')
  end.

(** [spawn_blocking(prompt, timeout, stage_name, show_output)].  The prompt
    only fills the command line and [show_output] only echoes the output to
    the console; neither reaches the result.  The temp directory and the two
    output files are made before the [try]: an exception there leaves the
    call as it is, past the [except] clause. *)
Definition spawn_blocking
    (sp : ClaudeSpawner.t) (timeout : option Z) (stage_name : option string)
    (w : world)
  : outcome TaskResult.t * ClaudeSpawner.t :=
  let actual_timeout := int_or timeout (timeout_seconds sp) in
  let task_label := str_or stage_name "task" in
  match w_setup w with
  | Some e => (Raised e, sp)
  | None =>
      let task_id := task_label +:+ "_" +:+ pretty (w_stamp w) in
      match blocking_try sp actual_timeout task_label task_id w with
      | (inr result, sp') => (Returned result, sp')
      | (inl e, sp') => blocking_except sp' e task_label task_id w
      end
  end.

(** ** spawner.py: [BackgroundTask] and [ClaudeSpawner._execute_task] *)

Module BackgroundTask.
Record t := Build {
  task_id : string;
  stage_name : string;
  process : option Z;
  status : TaskStatus;
  start_time : Q;
  timeout : Z;
  _result : option TaskResult.t;
}.

Definition is_running (self : t) : bool :=
  bool_decide (status self = RUNNING).

Definition is_done (self : t) : bool :=
  bool_decide (status self ∈ [COMPLETED; FAILED; TIMEOUT]).

(** The loop [while not self.is_done(): time.sleep(poll_interval)].  The
    task is written by its worker thread while the caller polls: [view k]
    is the task as the [k]-th look finds it.  At most [fuel] sleeps are
    run. *)
Fixpoint wait_done (fuel : nat) (view : nat → t) (poll_interval : Q) (k : nat)
  : outcome nat :=
  if is_done (view k) then Returned k
  else
    match fuel with
    | O => StillRunning
    | S fuel' =>
        match py_sleep poll_interval with
        | Some e => Raised e
        | None => wait_done fuel' view poll_interval (S k)
        end
    end.

(** [get_result(block, poll_interval)]; [now] is the clock reading used for
    the duration of a task that has no result yet. *)
Definition get_result
    (fuel : nat) (view : nat → t) (block : bool) (poll_interval now : Q)
  : outcome TaskResult.t :=
  match (if block then wait_done fuel view poll_interval 0 else Returned 0%nat) with
  | Returned k =>
      let self := view k in
      match _result self with
      | Some r => Returned r
      | None =>
          Returned
            (TaskResult.Build
               false "" (Some "Task still running") (-1)
               (if Qeq_bool (start_time self) 0 then 0%Q
                else (now - start_time self)%Q)
               (status self) None None)
      end
  | Raised e => Raised e
  | StillRunning => StillRunning
  end.
End BackgroundTask.

(** [_execute_task(task, prompt, on_complete, show_output)], run by the
    worker thread of a background spawn.  It returns nothing: it writes
    [task.start_time], [task.status], [task.process] and [task._result], and
    the model gives the task and the spawner as the call leaves them.  The
    temp directory and the two output files are made after the status is set
    to RUNNING and before the [try]: an exception there leaves the call (see
    [_execute_task_raises]) and the task as it then is.  An exception of
    [on_complete] is logged and dropped. *)
Definition _execute_task
    (sp : ClaudeSpawner.t) (task : BackgroundTask.t)
    (on_complete : option (TaskResult.t → option exn)) (w : world)
  : BackgroundTask.t * ClaudeSpawner.t :=
  let finish (sp : ClaudeSpawner.t) (process : option Z)
             (status : TaskStatus) (result : TaskResult.t) :=
    let _ := match on_complete with
             | Some f => f result
             | None => None
             end in
    (BackgroundTask.Build
       (BackgroundTask.task_id task) (BackgroundTask.stage_name task)
       process status (w_start w) (BackgroundTask.timeout task) (Some result),
     sp) in
  let duration := (w_end w - w_start w)%Q in
  let failed (sp : ClaudeSpawner.t) (process : option Z) (e : exn) :=
    finish sp process FAILED
      (TaskResult.Build false "" (Some (exn_text e)) (-1) duration FAILED
                        None None) in
  match w_setup w with
  | Some _ =>
      (BackgroundTask.Build
         (BackgroundTask.task_id task) (BackgroundTask.stage_name task)
         (BackgroundTask.process task) RUNNING (w_start w)
         (BackgroundTask.timeout task) (BackgroundTask._result task),
       sp)
  | None =>
      match w_popen w with
      | inl e => failed sp (BackgroundTask.process task) e
      | inr pid =>
          let sp := with_spawned sp (_all_spawned_processes sp ++ [pid]) in
          match monitor (w_start w) (BackgroundTask.timeout task) (w_polls w) with
          | Faulted e => failed sp (Some pid) e
          | TimedOut _ =>
              let sp :=
                with_spawned sp (remove_first pid (_all_spawned_processes sp)) in
              finish sp (Some pid) TIMEOUT
                (TaskResult.Build
                   false (w_stdout w)
                   (Some (timeout_message (BackgroundTask.timeout task) +:+
                          ". stderr: " +:+ w_stderr w))
                   (-1) duration TIMEOUT None None)
          | Exited =>
              let sp :=
                with_spawned sp (remove_first pid (_all_spawned_processes sp)) in
              let success := w_returncode w =? 0 in
              let status := if success then COMPLETED else FAILED in
              finish sp (Some pid) status
                (TaskResult.Build
                   success (w_stdout w) (str_or_none (w_stderr w))
                   (w_returncode w) duration status None None)
          end
      end
  end.

(** The exception that leaves [_execute_task] and ends its worker thread:
    that of the statements before the [try].  Whatever is raised inside the
    [try] is caught by its [except Exception] clause. *)
Definition _execute_task_raises (w : world) : option exn := w_setup w.

(** ** retry_handler.py *)

Module Retry.

Inductive BackoffStrategy := CONSTANT | LINEAR | EXPONENTIAL.

Record RetryConfig := {
  max_attempts : Z;
  base_delay_seconds : Q;
  max_delay_seconds : Q;
  backoff_strategy : BackoffStrategy;
  backoff_multiplier : Q;
  retryable_exceptions : list string;      (* a tuple of exception classes *)
  on_retry : option (Z → exn → option exn); (* may itself raise *)
}.

(** [RetryConfig()]: the defaults of the dataclass. *)
Definition default_config : RetryConfig :=
  Build_RetryConfig 3 1 60 EXPONENTIAL 2 ["Exception"] None.

(** What one call of [func] with its arguments does.  [None] as a value is
    Python's [None]. *)
Inductive call_result (V : Type) :=
  | Returns (v : option V)
  | Raises (e : exn).
Arguments Returns {V} v.
Arguments Raises {V} e.

(** An entry of [retry_stats]. *)
Record stat := {
  st_attempts : Z;
  st_success : bool;
  st_error : option string;
}.

(** What a call of [retry] has done besides giving its outcome: how often
    it called [func], the delays it slept, and the statistics it added. *)
Record trace := {
  invocations : nat;
  slept : list Q;
  retry_stats : list stat;
}.

Definition empty_trace : trace := Build_trace 0 [] [].

Definition invoked (tr : trace) : trace :=
  Build_trace (S (invocations tr)) (slept tr) (retry_stats tr).
Definition sleeping (d : Q) (tr : trace) : trace :=
  Build_trace (invocations tr) (slept tr ++ [d]) (retry_stats tr).
Definition recording (s : stat) (tr : trace) : trace :=
  Build_trace (invocations tr) (slept tr) (retry_stats tr ++ [s]).

Section WithLogger.

(** The methods of the module-level [logger] object. *)
Variable logger : list string.

(** Sequencing a call that may raise before the rest of a block. *)
Definition then_ {A S : Type}
    (r : option exn) (s : S) (k : outcome A * S) : outcome A * S :=
  match r with
  | Some e => (Raised e, s)
  | None => k
  end.

Definition log (m : string) : option exn := Logger.call_on logger m.

(** [RetryHandler._calculate_delay].  The members of [BackoffStrategy]
    are the three below, so the final [else] of the source is not
    reached. *)
Definition _calculate_delay (config : RetryConfig) (attempt : Z) : outcome Q :=
  let delay :=
    match backoff_strategy config with
    | CONSTANT => base_delay_seconds config
    | LINEAR => (base_delay_seconds config * inject_Z attempt)%Q
    | EXPONENTIAL =>
        (base_delay_seconds config *
         backoff_multiplier config ^ (attempt - 1))%Q
    end in
  let capped_delay := py_min delay (max_delay_seconds config) in
  match log "debug" with
  | Some e => Raised e
  | None => Returned capped_delay
  end.

Section Retry.

Context {V : Type}.
Variable config : RetryConfig.
(** [func n] is what the call of [func] does that comes after [n]
    earlier calls. *)
Variable func : nat → call_result V.

(** The statement after the loop: [if last_exception: raise it];
    otherwise the method ends and gives [None]. *)
Definition after_loop (last_exception : option exn) (tr : trace)
  : outcome (option V) * trace :=
  match last_exception with
  | Some e => (Raised e, tr)
  | None => (Returned None, tr)
  end.

(** The loop [while attempt < self.config.max_attempts]; [fuel] bounds
    the number of turns. *)
Fixpoint attempts_loop
    (fuel : nat) (attempt : Z) (last_exception : option exn) (tr : trace)
  : outcome (option V) * trace :=
  if attempt <? max_attempts config then
    match fuel with
    | O => (StillRunning, tr)
    | S fuel' =>
        let attempt := attempt + 1 in
        let tr := invoked tr in
        (* the [try] body: the call and the logging of its success *)
        let body : exn + (option V * trace) :=
          match func (pred (invocations tr)) with
          | Returns result =>
              if 1 <? attempt then
                match log "info" with
                | Some e => inl e
                | None =>
                    inr (result, recording (Build_stat attempt true None) tr)
                end
              else
                match log "debug" with
                | Some e => inl e
                | None => inr (result, tr)
                end
          | Raises e => inl e
          end in
        match body with
        | inr (result, tr') => (Returned result, tr')
        | inl e =>
            (* except self.config.retryable_exceptions as e *)
            if isinstance_any e (retryable_exceptions config) then
              let last_exception := Some e in
              if attempt >=? max_attempts config then
                then_ (log "error") tr
                  (after_loop last_exception
                     (recording
                        (Build_stat attempt false (Some (exn_text e))) tr))
              else
                then_ (log "warning") tr
                  (let _ := match on_retry config with
                            | Some hook => hook attempt e
                            | None => None
                            end in
                   match _calculate_delay config attempt with
                   | Returned delay =>
                       then_ (log "info") tr
                         (then_ (py_sleep delay) tr
                            (attempts_loop fuel' attempt last_exception
                               (sleeping delay tr)))
                   | Raised e' => (Raised e', tr)
                   | StillRunning => (StillRunning, tr)
                   end)
            else (Raised e, tr)
        end
    end
  else after_loop last_exception tr.

(** [RetryHandler.retry(func, ...)].  The loop adds one to [attempt] in
    each turn, so [max_attempts] turns are enough.  [func] is a function
    object: the log lines read [func.__name__].  The callback [on_retry]
    reads but does not write the handler. *)
Definition retry_with : outcome (option V) * trace :=
  then_ (log "debug") empty_trace
    (attempts_loop (Z.to_nat (max_attempts config)) 0 None empty_trace).

End Retry.

End WithLogger.

(** The handler as the repository runs it: with the [Logger] of
    logger.py. *)
Definition retry {V : Type} (config : RetryConfig) (func : nat → call_result V)
  : outcome (option V) * trace :=
  retry_with Logger.methods config func.


End Retry.

(** ** health_checker.py *)

Module Health.

Inductive HealthStatus :=
  HEALTHY | TIMEOUT | HUNG | HIGH_MEMORY | HIGH_CPU | NOT_FOUND | TERMINATED.

(** The [message] of a report: which text it is, with the values that the
    source formats into it. *)
Inductive report_message :=
  | MsgTerminated
  | MsgHighMemory (memory_mb : Q) (limit : Z)
  | MsgActive (cpu_percent : Q)
  | MsgNoActivity (seconds : Q) (timeout : Z)
  | MsgHealthy
  | MsgNotFound
  | MsgError (e : exn).

Record HealthReport := {
  pid : Z;
  status : HealthStatus;
  cpu_percent : Q;
  memory_mb : Q;
  runtime_seconds : Q;
  last_activity_seconds : Q;
  message : report_message;
}.

Record HealthChecker := {
  activity_timeout : Z;
  use_cpu_detection : bool;
  memory_limit_mb : Z;
  cpu_threshold : Q;
  _last_activity : gmap Z Q;
  _start_time : gmap Z Q;
}.

(** [HealthChecker()]: the defaults of [__init__], nothing registered. *)
Definition default_checker : HealthChecker :=
  Build_HealthChecker 1200 true 4096 1 ∅ ∅.

(** [register_process(pid)] at clock reading [now]. *)
Definition register_process (self : HealthChecker) (p : Z) (now : Q)
  : HealthChecker :=
  Build_HealthChecker
    (activity_timeout self) (use_cpu_detection self) (memory_limit_mb self)
    (cpu_threshold self)
    (<[p := now]> (_last_activity self)) (<[p := now]> (_start_time self)).

(** What psutil answers for the process: it does not exist, a call fails
    otherwise, or the measurements. *)
Inductive probe :=
  | NoSuchProcess
  | ProbeFails (e : exn)
  | Sample (cpu : Q) (rss : Z) (running : bool).

(** The three [time.time()] readings of [check_health], in order: the
    default of the start time, for the runtime, for the idle time. *)
Record clock := {
  t_default : Q;
  t_runtime : Q;
  t_activity : Q;
}.

Section WithLogger.

Variable logger : list string.

Definition log (m : string) : option exn := Logger.call_on logger m.

Definition logged (m : string) (r : HealthReport) : exn + HealthReport :=
  match log m with
  | Some e => inl e
  | None => inr r
  end.

(** The [try] body of [check_health] once psutil has answered. *)
Definition check_body
    (self : HealthChecker) (p : Z) (ck : clock)
    (cpu : Q) (rss : Z) (running : bool)
  : exn + HealthReport :=
  let mem := (inject_Z rss / inject_Z (1024 * 1024))%Q in
  let start := default (t_default ck) (_start_time self !! p) in
  let runtime := (t_runtime ck - start)%Q in
  let last_activity := default start (_last_activity self !! p) in
  let idle := (t_activity ck - last_activity)%Q in
  if negb running then
    logged "warning"
      (Build_HealthReport p TERMINATED 0 mem runtime idle MsgTerminated)
  else if Qltb (inject_Z (memory_limit_mb self)) mem then
    logged "warning"
      (Build_HealthReport p HIGH_MEMORY cpu mem runtime idle
         (MsgHighMemory mem (memory_limit_mb self)))
  else if Qltb (inject_Z (activity_timeout self)) idle then
    if use_cpu_detection self && Qleb (cpu_threshold self) cpu then
      logged "debug"
        (Build_HealthReport p HEALTHY cpu mem runtime idle (MsgActive cpu))
    else
      logged "warning"
        (Build_HealthReport p HUNG cpu mem runtime idle
           (MsgNoActivity idle (activity_timeout self)))
  else
    logged "debug"
      (Build_HealthReport p HEALTHY cpu mem runtime idle MsgHealthy).

(** The clause [except Exception as e]. *)
Definition on_error (p : Z) (e : exn) : outcome HealthReport :=
  match log "error" with
  | Some e' => Raised e'
  | None => Returned (Build_HealthReport p NOT_FOUND 0 0 0 0 (MsgError e))
  end.

(** [HealthChecker.check_health(pid)]. *)
Definition check_health_with
    (self : HealthChecker) (pr : probe) (ck : clock) (p : Z)
  : outcome HealthReport :=
  match pr with
  | NoSuchProcess =>
      (* except psutil.NoSuchProcess *)
      match log "warning" with
      | Some e' => Raised e'
      | None => Returned (Build_HealthReport p NOT_FOUND 0 0 0 0 MsgNotFound)
      end
  | ProbeFails e => on_error p e
  | Sample cpu rss running =>
      match check_body self p ck cpu rss running with
      | inr report => Returned report
      | inl e => on_error p e
      end
  end.

End WithLogger.

(** The checker as the repository runs it: with the [Logger] of
    logger.py. *)
Definition check_health : HealthChecker → probe → clock → Z → outcome HealthReport :=
  check_health_with Logger.methods.

End Health.

(** ** Scenarios and readings of the supervision claims *)

(** The errors of severity FATAL in a history. *)
Definition fatal_errors (h : list CriticalError.t) : list CriticalError.t :=
  filter (λ e, CriticalError.severity e = FATAL) h.

(** The output files are there, the child process starts and is seen
    running after more than [timeout] seconds. *)
Definition runs_past_timeout (timeout : Z) (w : world) : Prop :=
  w_setup w = None
  ∧ ∃ pid elapsed,
      w_popen w = inr pid
      ∧ monitor (w_start w) timeout (w_polls w) = TimedOut elapsed.

(** The output files are there, and the exception [e] is raised while the
    process is started or watched, that is, inside the [try]. *)
Definition raises_during_spawn (timeout : Z) (w : world) (e : exn) : Prop :=
  w_setup w = None
  ∧ (w_popen w = inl e
     ∨ ∃ pid, w_popen w = inr pid
              ∧ monitor (w_start w) timeout (w_polls w) = Faulted e).

(** The answer of [_handle_critical_error] lets the pipeline go on. *)
Definition goes_on (action : pyaction) : bool :=
  action_eq action CONTINUE || action_eq action RETRY.

(** "A timeout ends in status TIMEOUT with [success=false] and appends exactly
    one FATAL error to the history", read on each of the two paths. *)
Definition blocking_timeout_is_escalated : Prop :=
  ∀ sp timeout stage_name w,
    runs_past_timeout (int_or timeout (timeout_seconds sp)) w →
    let run := spawn_blocking sp timeout stage_name w in
    (∀ r, run.1 = Returned r →
          TaskResult.status r = TIMEOUT ∧ TaskResult.success r = false)
    ∧ length (fatal_errors (get_critical_errors run.2))
      = S (length (fatal_errors (get_critical_errors sp))).

Definition background_timeout_is_escalated : Prop :=
  ∀ sp task on_complete w,
    runs_past_timeout (BackgroundTask.timeout task) w →
    let run := _execute_task sp task on_complete w in
    BackgroundTask.status run.1 = TIMEOUT
    ∧ (∃ r, BackgroundTask._result run.1 = Some r
            ∧ TaskResult.success r = false)
    ∧ length (fatal_errors (get_critical_errors run.2))
      = S (length (fatal_errors (get_critical_errors sp))).

(** "An exception during spawn or monitoring appends a CriticalError of
    severity CRITICAL to the history", read on each of the two paths. *)
Definition blocking_exception_is_escalated : Prop :=
  ∀ sp timeout stage_name w e,
    raises_during_spawn (int_or timeout (timeout_seconds sp)) w e →
    ∃ ce,
      CriticalError.severity ce = CRITICAL
      ∧ get_critical_errors (spawn_blocking sp timeout stage_name w).2
        = get_critical_errors sp ++ [ce].

Definition background_exception_is_escalated : Prop :=
  ∀ sp task on_complete w e,
    raises_during_spawn (BackgroundTask.timeout task) w e →
    ∃ ce,
      CriticalError.severity ce = CRITICAL
      ∧ get_critical_errors (_execute_task sp task on_complete w).2
        = get_critical_errors sp ++ [ce].

(** A process that sleeps on while the clock passes the timeout of 5 s, and a
    launch that fails. *)
Definition sleeper : world :=
  {| w_start := 100; w_stamp := 100; w_setup := None; w_popen := inr 4242;
     w_polls := [PollRunning 100.5; PollRunning 105.5];
     w_returncode := 0; w_stdout := "working"; w_stderr := "";
     w_end := 106; w_timestamp := 106 |}.

Definition no_such_command : world :=
  {| w_start := 100; w_stamp := 100; w_setup := None;
     w_popen := inl (Exn "FileNotFoundError" ["OSError"]
                         "[Errno 2] No such file or directory: 'claude'");
     w_polls := []; w_returncode := 0; w_stdout := ""; w_stderr := "";
     w_end := 100.1; w_timestamp := 100.1 |}.

Definition fresh_spawner : ClaudeSpawner.t :=
  ClaudeSpawner.Build 600 None STOP_PIPELINE [] [].

Definition review_task : BackgroundTask.t :=
  BackgroundTask.Build "review_1" "review" None PENDING 0 5 None.

(** An operation that raises [ValueError] on every call. *)
Definition always_flaky : nat → Retry.call_result unit :=
  λ _, Retry.Raises (ValueError "flaky").

(** A running process that uses 100 MB and no CPU. *)
Definition idle_process : Health.probe :=
  Health.Sample 0 (100 * 1024 * 1024) true.

(** A callback that stops the pipeline on a FATAL error and lets it go on
    otherwise. *)
Definition stop_on_fatal : callback :=
  λ _ e,
    CbReturns (Member (if decide (CriticalError.severity e = FATAL)
                       then STOP_PIPELINE else CONTINUE)).

(** * The rest of the three modules *)

(** ** spawner.py: [spawn_skill] *)

(** [s.replace(a, b)] for two one-character texts. *)
Fixpoint replace_char (a b : ascii) (s : string) : string :=
  match s with
  | EmptyString => EmptyString
  | String c s' => String (if decide (c = a) then b else c) (replace_char a b s')
  end.

(** [spawn_skill(skill_name, args, timeout, show_output)]: the skill name and
    its arguments make the prompt; the stage name is the skill name with
    every [/] turned into [_]. *)
Definition spawn_skill
    (sp : ClaudeSpawner.t) (skill_name : string) (timeout : Z) (w : world)
  : outcome TaskResult.t * ClaudeSpawner.t :=
  spawn_blocking sp (Some timeout) (Some (replace_char "/" "_" skill_name)) w.

(** ** spawner.py: [ClaudeSpawner._read_and_cleanup] *)

(** A file as the spawner meets it: reading it gives its text or fails, and
    [os.unlink] on it succeeds or fails. *)
Record file := {
  f_read : exn + string;
  f_unlink : option exn;
}.

(** [_read_and_cleanup(filepath, keep_file)] on a disk, a map from paths to
    files.  It gives the text read and the disk it leaves.  A failing
    [os.unlink] after a good read raises inside the [try]: the [except]
    clause logs, tries the [unlink] once more, and the text is lost. *)
Definition _read_and_cleanup
    (disk : gmap string file) (filepath : option string) (keep_file : bool)
  : string * gmap string file :=
  match filepath with
  | None => ("", disk)
  | Some path =>
      if bool_decide (path = "") then ("", disk)
      else
        match disk !! path with
        | None => ("", disk)
        | Some f =>
            let on_except :=
              (* logger.error(...); if not keep_file: try unlink; return "" *)
              if keep_file then ("", disk)
              else match f_unlink f with
                   | None => ("", delete path disk)
                   | Some _ => ("", disk)
                   end in
            match f_read f with
            | inr content =>
                if keep_file then (content, disk)
                else match f_unlink f with
                     | None => (content, delete path disk)
                     | Some _ => on_except
                     end
            | inl _ => on_except
            end
        end
  end.

(** ** spawner.py: [ClaudeSpawner._kill_process_tree] *)

(** The errors of the [os] calls; all three are [OSError]s. *)
Inductive oserror := ProcessLookupError | PermissionError | OtherOSError.

Inductive signal := SIGTERM | SIGKILL.

(** The calls that try to end the process, made or only tried. *)
Inductive kill_call :=
  | Killpg (pgid : Z) (sig : signal)
  | Kill (pid : Z) (sig : signal)
  | PopenKill (pid : Z).

(** What the operating system answers while one process tree is killed. *)
Record kill_world := {
  kw_nt : bool;                          (* os.name == 'nt' *)
  kw_getpgid : oserror + Z;              (* os.getpgid(pid) *)
  kw_killpg : signal → option oserror;   (* os.killpg(pgid, sig) *)
  kw_alive_after_killpg : bool;          (* process.poll() is None, after it *)
  kw_kill : signal → option oserror;     (* os.kill(pid, sig) *)
  kw_alive_after_kill : bool;            (* process.poll() is None, after it *)
  kw_popen_kill : option oserror;        (* process.kill() *)
}.

(** [isinstance(e, cls)] for the errors of the [os] calls. *)
Definition oserror_isinstance (e : oserror) (cls : string) : bool :=
  bool_decide (cls = "OSError" ∨ cls = "Exception")
  || match e with
     | ProcessLookupError => bool_decide (cls = "ProcessLookupError")
     | PermissionError => bool_decide (cls = "PermissionError")
     | OtherOSError => false
     end.

(** A run of some statements: the error that leaves them, if any, and the
    calls made, in order. *)
Definition kill_run : Type := option oserror * list kill_call.

Definition done_nothing : kill_run := (None, []).

(** One call, made with the answer [r]. *)
Definition made (c : kill_call) (r : option oserror) : kill_run := (r, [c]).

(** [a] and then, unless [a] raised, [b]. *)
Definition and_then (a b : kill_run) : kill_run :=
  match a with
  | (Some e, calls) => (Some e, calls)
  | (None, calls) => (b.1, calls ++ b.2)
  end.

(** [try: a except (classes): handler]. *)
Definition try_except (a : kill_run) (classes : list string) (handler : kill_run)
  : kill_run :=
  match a with
  | (Some e, calls) =>
      if existsb (oserror_isinstance e) classes
      then (handler.1, calls ++ handler.2)
      else (Some e, calls)
  | (None, calls) => (None, calls)
  end.

(** [_kill_process_tree(process)]. *)
Definition _kill_process_tree (kw : kill_world) (process : option Z) : kill_run :=
  match process with
  | None => done_nothing
  | Some pid =>
      if kw_nt kw then
        try_except (made (PopenKill pid) (kw_popen_kill kw))
          ["ProcessLookupError"; "OSError"] done_nothing
      else
        try_except
          match kw_getpgid kw with
          | inl e => (Some e, [])
          | inr pgid =>
              and_then (made (Killpg pgid SIGTERM) (kw_killpg kw SIGTERM))
                (if kw_alive_after_killpg kw then
                   try_except (made (Killpg pgid SIGKILL) (kw_killpg kw SIGKILL))
                     ["ProcessLookupError"] done_nothing
                 else done_nothing)
          end
          ["ProcessLookupError"; "PermissionError"; "OSError"]
          (try_except
             (and_then (made (Kill pid SIGTERM) (kw_kill kw SIGTERM))
                (if kw_alive_after_kill kw then
                   made (Kill pid SIGKILL) (kw_kill kw SIGKILL)
                 else done_nothing))
             ["ProcessLookupError"; "OSError"] done_nothing)
  end.

(** ** retry_handler.py: the handler and its statistics *)

Module RetryHandler.

Record t := Build {
  config : Retry.RetryConfig;
  retry_stats : list Retry.stat;
}.

(** [RetryHandler(config)]: [config or RetryConfig()], no statistics. *)
Definition init (config : option Retry.RetryConfig) : t :=
  Build (default Retry.default_config config) [].

(** [self.retry(func)]: the outcome, the trace of the call, and the handler
    with the statistics the call has added. *)
Definition retry {V : Type} (self : t) (func : nat → Retry.call_result V)
  : outcome (option V) * Retry.trace * t :=
  let '(out, tr) := Retry.retry (config self) func in
  (out, tr, Build (config self) (retry_stats self ++ Retry.retry_stats tr)).

(** [self.should_retry(exception)]. *)
Definition should_retry (self : t) (exception : exn) : bool :=
  isinstance_any exception (Retry.retryable_exceptions (config self)).

(** The dictionary of [get_stats]; [details] is missing when there are no
    statistics. *)
Record stats := {
  total_retries : Z;
  successful_retries : Z;
  failed_retries : Z;
  details : option (list Retry.stat);
}.

Definition get_stats (self : t) : stats :=
  match retry_stats self with
  | [] => Build_stats 0 0 0 None
  | _ =>
      let total := Z.of_nat (length (retry_stats self)) in
      let successful :=
        Z.of_nat (length (filter (λ s, Retry.st_success s = true)
                                 (retry_stats self))) in
      Build_stats total successful (total - successful) (Some (retry_stats self))
  end.

Definition reset_stats (self : t) : t := Build (config self) [].

End RetryHandler.

(** ** health_checker.py: the other methods and functions *)

Module HealthOps.

Import Health.

(** [record_activity(pid)] at clock reading [now]. *)
Definition record_activity (self : HealthChecker) (p : Z) (now : Q)
  : HealthChecker :=
  Build_HealthChecker
    (activity_timeout self) (use_cpu_detection self) (memory_limit_mb self)
    (cpu_threshold self)
    (<[p := now]> (_last_activity self)) (_start_time self).

(** [cleanup(pid)]: [dict.pop(pid, None)] on both maps. *)
Definition cleanup (self : HealthChecker) (p : Z) : HealthChecker :=
  Build_HealthChecker
    (activity_timeout self) (use_cpu_detection self) (memory_limit_mb self)
    (cpu_threshold self)
    (delete p (_last_activity self)) (delete p (_start_time self)).

(** The reason text of [should_kill], with the value formatted into it. *)
Inductive kill_reason :=
  | ReasonHung (idle : Q)
  | ReasonMemory (memory_mb : Q)
  | ReasonTerminated
  | ReasonNotFound
  | ReasonHealthy.

(** [should_kill(pid)] with a logger that has the methods of [logger]. *)
Definition should_kill_with
    (logger : list string)
    (self : HealthChecker) (pr : probe) (ck : clock) (p : Z)
  : outcome (bool * kill_reason) :=
  let answer (m : string) (a : bool * kill_reason) :=
    match Logger.call_on logger m with
    | Some e => Raised e
    | None => Returned a
    end in
  match check_health_with logger self pr ck p with
  | Returned report =>
      match status report with
      | HUNG => answer "info" (true, ReasonHung (last_activity_seconds report))
      | HIGH_MEMORY => answer "info" (true, ReasonMemory (memory_mb report))
      | TERMINATED => answer "debug" (false, ReasonTerminated)
      | NOT_FOUND => answer "debug" (false, ReasonNotFound)
      | _ => answer "debug" (false, ReasonHealthy)
      end
  | Raised e => Raised e
  | StillRunning => StillRunning
  end.

Definition should_kill : HealthChecker → probe → clock → Z → outcome (bool * kill_reason) :=
  should_kill_with Logger.methods.

(** The loop of [detect_critical_errors] over the lowered output. *)
Fixpoint first_pattern_in (patterns : list string) (output_lower : string)
  : option string :=
  match patterns with
  | [] => None
  | pattern :: rest =>
      if py_in (lower pattern) output_lower then Some pattern
      else first_pattern_in rest output_lower
  end.

(** [detect_critical_errors(output, patterns)]. *)
Definition detect_critical_errors (output : string) (patterns : list string)
  : option string :=
  first_pattern_in patterns (lower output).

End HealthOps.

(** ** Inputs of the examples below *)

(** A process that exits with code 0 after one look. *)
Definition quick_success : world :=
  {| w_start := 100; w_stamp := 100; w_setup := None; w_popen := inr 4242;
     w_polls := [PollRunning 100.5];
     w_returncode := 0; w_stdout := "OK"; w_stderr := "";
     w_end := 101; w_timestamp := 101 |}.

(** A process that exits with code 1 and an ordinary error text. *)
Definition plain_failure : world :=
  {| w_start := 100; w_stamp := 100; w_setup := None; w_popen := inr 4242;
     w_polls := [PollRunning 100.5];
     w_returncode := 1; w_stdout := ""; w_stderr := "tests failed";
     w_end := 101; w_timestamp := 101 |}.

(** A spawn whose temp directory cannot be made: the project root is not
    there. *)
Definition no_temp_dir : world :=
  {| w_start := 100; w_stamp := 100;
     w_setup := Some (Exn "FileNotFoundError" ["OSError"]
                          "[Errno 2] No such file or directory: '/srv/app/.orchestrate-temp'");
     w_popen := inr 4242; w_polls := [PollRunning 100.5];
     w_returncode := 0; w_stdout := ""; w_stderr := "";
     w_end := 101; w_timestamp := 101 |}.

(** A process already gone when its tree is to be killed. *)
Definition gone_process : kill_world :=
  {| kw_nt := false; kw_getpgid := inl ProcessLookupError;
     kw_killpg := λ _, Some ProcessLookupError; kw_alive_after_killpg := false;
     kw_kill := λ _, Some ProcessLookupError; kw_alive_after_kill := false;
     kw_popen_kill := Some ProcessLookupError |}.

(** ** Readings used for the default escalation policy *)



(** * Properties *)

(** ** The error classifier *)

Section Classifier.

Lemma is_upper_bounds c :
  is_upper c = true ↔ (65 ≤ N_of_ascii c ∧ N_of_ascii c ≤ 90)%N.
Proof.
  unfold is_upper. rewrite andb_true_iff, !N.leb_le. tauto.
Qed.

Lemma N_of_lower_upper c :
  is_upper c = true → N_of_ascii (lower_char c) = (N_of_ascii c + 32)%N.
Proof.
  intros Hc. unfold lower_char. rewrite Hc.
  apply is_upper_bounds in Hc. apply N_ascii_embedding. lia.
Qed.

Lemma N_of_ascii_inj a b : N_of_ascii a = N_of_ascii b → a = b.
Proof.
  intros H. rewrite <- (ascii_N_embedding a), <- (ascii_N_embedding b).
  by rewrite H.
Qed.

(** Lowering two characters gives the same character exactly when they are
    the same letter up to case. *)
Lemma lower_char_same_letter a b :
  bool_decide (lower_char a = lower_char b) = same_letter a b.
Proof.
  unfold same_letter.
  destruct (is_upper a) eqn:Ha, (is_upper b) eqn:Hb; simpl;
    rewrite ?orb_false_r.
  - (* both upper case *)
    pose proof (N_of_lower_upper a Ha) as La.
    pose proof (N_of_lower_upper b Hb) as Lb.
    apply is_upper_bounds in Ha, Hb.
    apply eq_true_iff_eq. rewrite ?orb_true_iff, !bool_decide_eq_true. split.
    + intros E. left. left. apply N_of_ascii_inj.
      rewrite E in La. lia.
    + intros [[->| E] | E]; [done | lia | lia].
  - (* a upper, b not *)
    pose proof (N_of_lower_upper a Ha) as La.
    apply eq_true_iff_eq. rewrite ?orb_true_iff, !bool_decide_eq_true.
    unfold lower_char at 2. rewrite Hb. split.
    + intros E. right. by rewrite <- E.
    + intros [-> | E]; [congruence |].
      apply N_of_ascii_inj. lia.
  - (* b upper, a not *)
    pose proof (N_of_lower_upper b Hb) as Lb.
    apply eq_true_iff_eq. rewrite ?orb_true_iff, !bool_decide_eq_true.
    unfold lower_char at 1. rewrite Ha. split.
    + intros E. right. by rewrite E.
    + intros [-> | E]; [congruence |].
      apply N_of_ascii_inj. lia.
  - unfold lower_char. by rewrite Ha, Hb.
Qed.

Lemma starts_with_lower p s :
  starts_with (lower p) (lower s) = occurs_here_ci p s.
Proof.
  revert s. induction p as [| a p IH]; intros [| b s]; simpl; try done.
  rewrite <- lower_char_same_letter, <- IH.
  by destruct (decide (lower_char a = lower_char b));
    [rewrite bool_decide_true | rewrite bool_decide_false].
Qed.

Lemma py_in_lower p s : py_in (lower p) (lower s) = contains_ci s p.
Proof.
  induction s as [| b s IH].
  - simpl. by rewrite <- starts_with_lower.
  - cbn [lower py_in contains_ci]. rewrite <- IH.
    by rewrite <- (starts_with_lower p (String b s)).
Qed.

Lemma any_pattern_in_lower patterns s :
  any_pattern_in patterns (lower s) = existsb (contains_ci s) patterns.
Proof.
  induction patterns as [| p ps IH]; simpl; [done |].
  rewrite py_in_lower, IH. by destruct (contains_ci s p).
Qed.

Lemma classify_reference c s st :
  _classify_error_severity c s st = reference_severity c s st.
Proof.
  unfold _classify_error_severity, reference_severity.
  destruct (decide (st = TIMEOUT)); [done |].
  rewrite !any_pattern_in_lower.
  destruct (existsb _ critical_patterns); [done |].
  destruct (existsb _ recoverable_patterns); [done |].
  destruct (decide (c = 0)) as [-> | ?]; [done |].
  destruct (Z.eqb_spec c 0); [done |].
  destruct (decide (c < 0)), (Z.ltb_spec c 0); try lia; [done |].
  unfold Z.geb.
  destruct (decide (100 ≤ c)), (Z.compare_spec c 100); done || lia.
Qed.

End Classifier.

(** C2.  [_classify_error_severity] equals the reference definition for every
    exit code, error text and status; and a matching pattern decides before
    the exit code is looked at: a critical pattern gives CRITICAL and
    (without a critical one) a transient pattern gives RECOVERABLE whatever
    the exit code, in particular for exit code 1. *)
Theorem classifier_equals_reference :
  (∀ c s st, _classify_error_severity c s st = reference_severity c s st)
  ∧ (∀ c s st,
       st ≠ TIMEOUT →
       existsb (contains_ci s) critical_patterns = true →
       _classify_error_severity c s st = CRITICAL)
  ∧ (∀ c s st,
       st ≠ TIMEOUT →
       existsb (contains_ci s) critical_patterns = false →
       existsb (contains_ci s) recoverable_patterns = true →
       _classify_error_severity c s st = RECOVERABLE).
Proof.
  split; [exact classify_reference |].
  split; intros c s st Hst; rewrite classify_reference; unfold reference_severity;
    destruct (decide (st = TIMEOUT)); try done.
  - by intros ->.
  - by intros -> ->.
Qed.

Lemma classifier_equals_reference_witness :
  _classify_error_severity 1 "bash: PERMISSION denied" FAILED = CRITICAL
  ∧ _classify_error_severity 1 "Try again later" FAILED = RECOVERABLE
  ∧ _classify_error_severity 137 "try AGAIN later" FAILED = RECOVERABLE.
Proof.
  destruct classifier_equals_reference as (_ & Hcrit & Htrans).
  split; [| split].
  - apply Hcrit; [discriminate | reflexivity].
  - apply Htrans; [discriminate | reflexivity | reflexivity].
  - apply Htrans; [discriminate | reflexivity | reflexivity].
Defined.

(** ** The escalation policy *)

(** Every [Logger] method that spawner.py calls exists, so that none of its
    logging lines raises. *)
Lemma spawner_logging_never_raises :
  Forall (λ m, Logger.call m = None) spawner_log_calls.
Proof. repeat constructor. Qed.

(** A value equals at most one member of [EscalationAction]. *)
Lemma action_eq_unique v a b :
  action_eq v a = true → action_eq v b = true → a = b.
Proof.
  destruct v as [m | s h | h]; simpl; [| | done].
  - rewrite !bool_decide_eq_true. congruence.
  - rewrite !bool_decide_eq_true. intros -> E. by destruct a, b.
Qed.

Lemma execute_escalation_action_spec v r tid :
  _execute_escalation_action v r tid
  = action_eq v CONTINUE || action_eq v RETRY.
Proof.
  unfold _execute_escalation_action.
  destruct (action_eq v CONTINUE) eqn:Hc; [done |].
  destruct (action_eq v STOP_PIPELINE) eqn:Hs; simpl.
  - destruct (action_eq v RETRY) eqn:Hr; [| done].
    by pose proof (action_eq_unique _ _ _ Hs Hr).
  - by destruct (action_eq v RETRY), (action_eq v ASK_HUMAN).
Qed.

(** C5.  [_execute_escalation_action] gives [true] for CONTINUE and RETRY,
    [false] for STOP_PIPELINE and ASK_HUMAN, and [false] for every value that
    equals none of the four members; so it gives [true] exactly for values
    equal to CONTINUE or to RETRY, whatever the result and the task id. *)
Theorem execute_escalation_action_fails_safe (r : TaskResult.t) (tid : string) :
  _execute_escalation_action (Member CONTINUE) r tid = true
  ∧ _execute_escalation_action (Member RETRY) r tid = true
  ∧ _execute_escalation_action (Member STOP_PIPELINE) r tid = false
  ∧ _execute_escalation_action (Member ASK_HUMAN) r tid = false
  ∧ (∀ v, (∀ a, action_eq v a = false) →
          _execute_escalation_action v r tid = false)
  ∧ (∀ v, _execute_escalation_action v r tid = true
          ↔ action_eq v CONTINUE = true ∨ action_eq v RETRY = true).
Proof.
  repeat split; try reflexivity.
  - intros v Hv. by rewrite execute_escalation_action_spec, !Hv.
  - rewrite execute_escalation_action_spec. apply orb_true_iff.
  - rewrite execute_escalation_action_spec. apply orb_true_iff.
Qed.

Lemma execute_escalation_action_fails_safe_witness :
  _execute_escalation_action (Text "abort" false)
    (TaskResult.Build false "" None 1 0 FAILED None None) "develop_1" = false
  ∧ _execute_escalation_action (Text "retry" false)
    (TaskResult.Build false "" None 1 0 FAILED None None) "develop_1" = true.
Proof.
  pose proof (execute_escalation_action_fails_safe
                (TaskResult.Build false "" None 1 0 FAILED None None)
                "develop_1") as (_ & _ & _ & _ & Hother & Hiff).
  split.
  - apply Hother. intros []; reflexivity.
  - apply Hiff. right. reflexivity.
Defined.

(** C6.  [_handle_critical_error] stores the error before it decides: the
    history afterwards is the old one followed by the error, whatever is
    decided; a configured callback is run on a history that already holds the
    error; and when the callback raises, the answer is the configured default
    action and nothing is raised. *)
Theorem handle_critical_error_stores_then_decides
    (sp : ClaudeSpawner.t) (e : CriticalError.t) :
  get_critical_errors (_handle_critical_error sp e).2
    = get_critical_errors sp ++ [e]
  ∧ (∀ handler,
       on_critical_error sp = Some handler →
       (_handle_critical_error sp e).1
       = match handler (get_critical_errors sp ++ [e]) e with
         | CbReturns v =>
             if has_value_attr v then v else Member (default_escalation sp)
         | CbRaises _ => Member (default_escalation sp)
         end)
  ∧ (∀ handler ex,
       on_critical_error sp = Some handler →
       handler (get_critical_errors sp ++ [e]) e = CbRaises ex →
       (_handle_critical_error sp e).1 = Member (default_escalation sp))
  ∧ (on_critical_error sp = None →
     (_handle_critical_error sp e).1 = Member (default_escalation sp)).
Proof.
  unfold _handle_critical_error, get_critical_errors. simpl.
  split; [| split; [| split]].
  - destruct (on_critical_error sp) as [h |]; [| done].
    destruct (h _ e) as [v | ?]; [| done]. by destruct (has_value_attr v).
  - intros h ->. destruct (h _ e) as [v | ?]; [| done].
    by destruct (has_value_attr v).
  - by intros h ex -> ->.
  - by intros ->.
Qed.

Lemma handle_critical_error_stores_then_decides_witness :
  let e := CriticalError.Build "Task failed with exit code 1" CRITICAL
             "develop_1" "develop" None None 0 in
  let sp := ClaudeSpawner.Build 600
              (Some (λ _ _, CbRaises (ValueError "handler failed")))
              ASK_HUMAN [] [] in
  (_handle_critical_error sp e).1 = Member ASK_HUMAN
  ∧ get_critical_errors (_handle_critical_error sp e).2 = [e].
Proof.
  intros e sp.
  destruct (handle_critical_error_stores_then_decides sp e)
    as (Hhist & _ & Hraise & _).
  split.
  - apply (Hraise (λ _ _, CbRaises (ValueError "handler failed"))
                  (ValueError "handler failed")); reflexivity.
  - exact Hhist.
Defined.

(** ** Background task handles *)

Lemma wait_done_never_done fuel view poll_interval k :
  (∀ j, BackgroundTask.is_done (view j) = false) →
  BackgroundTask.wait_done fuel view poll_interval k
  = match py_sleep poll_interval with
    | Some e => match fuel with O => StillRunning | S _ => Raised e end
    | None => StillRunning
    end.
Proof.
  intros Hnot. revert k.
  induction fuel as [| fuel IH]; intros k;
    cbn [BackgroundTask.wait_done]; rewrite Hnot.
  - by destruct (py_sleep _).
  - destruct (py_sleep _) eqn:Hs; [done |].
    by rewrite IH.
Qed.

(** C10.  [is_done] is true exactly for the statuses COMPLETED, FAILED and
    TIMEOUT.  A task in status CRITICAL_ERROR is not done, and as long as it
    stays in that status a blocking [get_result] does not return, however
    many polls it is given: with a non-negative poll interval it is still in
    its loop after any number of sleeps. *)
Theorem is_done_leaves_out_critical_error :
  (∀ t, BackgroundTask.is_done t = true
        ↔ BackgroundTask.status t = COMPLETED
          ∨ BackgroundTask.status t = FAILED
          ∨ BackgroundTask.status t = TIMEOUT)
  ∧ (∀ t, BackgroundTask.status t = CRITICAL_ERROR →
          BackgroundTask.is_done t = false)
  ∧ (∀ fuel view poll_interval now,
       (∀ k, BackgroundTask.status (view k) = CRITICAL_ERROR) →
       (∀ r, BackgroundTask.get_result fuel view true poll_interval now
             ≠ Returned r)
       ∧ ((0 <= poll_interval)%Q →
          BackgroundTask.get_result fuel view true poll_interval now
          = StillRunning)).
Proof.
  assert (Hcrit : ∀ t, BackgroundTask.status t = CRITICAL_ERROR →
                       BackgroundTask.is_done t = false).
  { intros t Ht. unfold BackgroundTask.is_done. by rewrite Ht. }
  split; [| split; [exact Hcrit |]].
  - intros t. unfold BackgroundTask.is_done.
    rewrite bool_decide_eq_true, !elem_of_cons, elem_of_nil. tauto.
  - intros fuel view poll_interval now Hview.
    unfold BackgroundTask.get_result.
    rewrite wait_done_never_done by (intros j; apply Hcrit, Hview).
    unfold py_sleep. destruct (Qlt_le_dec poll_interval 0) as [Hneg | Hpos].
    + split.
      * by destruct fuel.
      * intros H0. exfalso. exact (Qlt_not_le _ _ Hneg H0).
    + done.
Qed.

Lemma is_done_leaves_out_critical_error_witness :
  let stuck := BackgroundTask.Build "review_1" "review" (Some 4242)
                 CRITICAL_ERROR 100 600 None in
  BackgroundTask.is_done stuck = false
  ∧ BackgroundTask.get_result 1000 (λ _, stuck) true 1 2000 = StillRunning.
Proof.
  intros stuck.
  destruct is_done_leaves_out_critical_error as (_ & Hnot & Hwait).
  split.
  - apply Hnot. reflexivity.
  - apply (Hwait 1000%nat (λ _, stuck) 1%Q 2000%Q).
    + intros k. reflexivity.
    + discriminate.
Defined.

(** ** The retry handler *)






(** *** Retrying, with the logger of the repository *)

(** [retry_handler.py] announces a retry with [logger.warning(...)], and the
    [Logger] of logger.py has [warn] but no [warning]. *)
Lemma logger_has_no_warning :
  Logger.call "warning"
  = Some (AttributeError "'Logger' object has no attribute 'warning'")
  ∧ Logger.call "warn" = None.
Proof. split; reflexivity. Qed.

Section RetryAsShipped.

Context {V : Type}.
Variable config : Retry.RetryConfig.
Variable func : nat → Retry.call_result V.

Lemma retry_unfold_first_attempt :
  1 ≤ Retry.max_attempts config →
  ∃ fuel, Z.to_nat (Retry.max_attempts config) = S fuel
          ∧ (0 <? Retry.max_attempts config) = true.
Proof.
  intros H. exists (Z.to_nat (Retry.max_attempts config - 1)).
  split; [lia |]. apply Z.ltb_lt. lia.
Qed.

(** An exception that is not retryable leaves [retry] at once. *)
Lemma retry_propagates_other_exceptions e :
  1 ≤ Retry.max_attempts config →
  func 0%nat = Retry.Raises e →
  isinstance_any e (Retry.retryable_exceptions config) = false →
  Retry.retry config func = (Raised e, Retry.Build_trace 1 [] []).
Proof.
  intros Hmax Hf Hno.
  destruct (retry_unfold_first_attempt Hmax) as (fuel & Hfuel & Hlt).
  unfold Retry.retry, Retry.retry_with. rewrite Hfuel.
  cbn [Retry.attempts_loop Retry.then_ Retry.log Logger.call_on].
  simpl. rewrite Hlt. simpl. by rewrite Hf, Hno.
Qed.

(** A retryable exception in the first call, with attempts left: the line
    that announces the retry raises [AttributeError], which leaves [retry]
    after this one call. *)
Lemma retry_fails_to_retry e :
  2 ≤ Retry.max_attempts config →
  func 0%nat = Retry.Raises e →
  isinstance_any e (Retry.retryable_exceptions config) = true →
  Retry.retry config func
  = (Raised (AttributeError "'Logger' object has no attribute 'warning'"),
     Retry.Build_trace 1 [] []).
Proof.
  intros Hmax Hf Hyes.
  assert (1 ≤ Retry.max_attempts config) as H1 by lia.
  destruct (retry_unfold_first_attempt H1) as (fuel & Hfuel & Hlt).
  unfold Retry.retry, Retry.retry_with. rewrite Hfuel.
  cbn [Retry.attempts_loop Retry.then_ Retry.log Logger.call_on].
  simpl. rewrite Hlt. simpl. rewrite Hf, Hyes.
  destruct (Z.geb_spec (0 + 1) (Retry.max_attempts config)); [lia | done].
Qed.

End RetryAsShipped.

(** C7, on the code.  Three attempts are allowed and every call raises a
    retryable [ValueError]: [retry] calls the operation once and raises
    [AttributeError], where the claim has three calls and the [ValueError] of
    the last one. *)
Theorem retry_raises_attribute_error_instead_of_retrying :
  Retry.retry Retry.default_config always_flaky
  = (Raised (AttributeError "'Logger' object has no attribute 'warning'"),
     Retry.Build_trace 1 [] []).
Proof. reflexivity. Qed.

(** *** Retrying, with a logger that has the methods the handler calls *)

(** Were [warning] a method of the logger, the loop would do what its
    docstring says: with every call raising a retryable exception and no
    negative delay, [max_attempts] calls and then the last exception. *)
Section RetryWithWorkingLogger.

Context {V : Type}.
Variable logger : list string.
Variable config : Retry.RetryConfig.
Variable func : nat → Retry.call_result V.

Hypothesis logger_complete :
  ∀ m, m ∈ ["debug"; "info"; "warning"; "error"] → m ∈ logger.
Hypothesis always_retryable :
  ∀ k, ∃ e, func k = Retry.Raises e
            ∧ isinstance_any e (Retry.retryable_exceptions config) = true.
Hypothesis delays_not_negative :
  ∀ n d, 1 ≤ n → Retry._calculate_delay logger config n = Returned d →
         (0 <= d)%Q.

Lemma working_log m :
  m ∈ ["debug"; "info"; "warning"; "error"] → Retry.log logger m = None.
Proof.
  intros Hm. unfold Retry.log, Logger.call_on.
  by rewrite bool_decide_true by auto.
Qed.

Lemma working_delay n :
  ∃ d, Retry._calculate_delay logger config n = Returned d.
Proof.
  unfold Retry._calculate_delay.
  rewrite working_log by set_solver. eauto.
Qed.

Lemma attempts_loop_exhausts fuel attempt last tr :
  attempt = Z.of_nat (Retry.invocations tr) →
  attempt < Retry.max_attempts config →
  fuel = Z.to_nat (Retry.max_attempts config - attempt) →
  ∃ e tr',
    Retry.attempts_loop logger config func fuel attempt last tr = (Raised e, tr')
    ∧ func (Z.to_nat (Retry.max_attempts config) - 1)%nat = Retry.Raises e
    ∧ Retry.invocations tr' = Z.to_nat (Retry.max_attempts config).
Proof.
  revert attempt last tr.
  induction fuel as [| fuel IH]; intros attempt last tr Hatt Hlt Hfuel; [lia |].
  cbn [Retry.attempts_loop].
  destruct (Z.ltb_spec attempt (Retry.max_attempts config)); [| lia].
  cbn [Retry.invoked Retry.invocations Nat.pred].
  destruct (always_retryable (Retry.invocations tr)) as (e & Hf & Hre).
  rewrite Hf, Hre.
  destruct (Z.geb_spec (attempt + 1) (Retry.max_attempts config)) as [Hge | Hlt'].
  - rewrite working_log by set_solver. cbn.
    exists e. eexists. split; [reflexivity |]. split; [| simpl; lia].
    replace (Z.to_nat (Retry.max_attempts config) - 1)%nat
      with (Retry.invocations tr) by lia.
    exact Hf.
  - rewrite working_log by set_solver. cbn [Retry.then_].
    destruct (working_delay (attempt + 1)) as (d & Hd). rewrite Hd.
    rewrite working_log by set_solver. cbn [Retry.then_].
    assert (py_sleep d = None) as ->.
    { unfold py_sleep. destruct (Qlt_le_dec d 0) as [Hneg |]; [| done].
      exfalso. apply (Qlt_not_le _ _ Hneg).
      apply (delays_not_negative (attempt + 1)); [lia | done]. }
    apply IH; [simpl; lia | lia | lia].
Qed.

Lemma retry_with_working_logger_exhausts :
  1 ≤ Retry.max_attempts config →
  ∃ e tr,
    Retry.retry_with logger config func = (Raised e, tr)
    ∧ func (Z.to_nat (Retry.max_attempts config) - 1)%nat = Retry.Raises e
    ∧ Retry.invocations tr = Z.to_nat (Retry.max_attempts config).
Proof.
  intros Hmax. unfold Retry.retry_with.
  change (Logger.call_on logger "debug") with (Retry.log logger "debug").
  rewrite working_log by set_solver. cbn [Retry.then_].
  apply attempts_loop_exhausts; [done | lia | lia].
Qed.

End RetryWithWorkingLogger.

(** ** The health checker *)

(** *** With the logger of the repository *)

Section HealthAsShipped.

Variable self : Health.HealthChecker.
Variable ck : Health.clock.
Variable p : Z.

(** The branches of [check_health] that end in [logger.warning] (TERMINATED,
    HIGH_MEMORY, HUNG) raise [AttributeError] inside the [try]; the clause
    [except Exception] turns that into a NOT_FOUND report.  So no report of
    the checker carries one of these three statuses. *)
Lemma check_health_never_reports_hung pr r :
  Health.check_health self pr ck p = Returned r →
  Health.status r = Health.HEALTHY ∨ Health.status r = Health.NOT_FOUND.
Proof.
  unfold Health.check_health, Health.check_health_with.
  destruct pr as [| e | cpu rss running]; [done | |].
  - unfold Health.on_error. simpl. intros [= <-]. by right.
  - unfold Health.check_body, Health.logged, Health.on_error.
    repeat case_match; simplify_eq; simpl; intros [= <-]; auto.
Qed.

(** The HEALTHY half of the rule does hold: with CPU detection on and the
    CPU reading at or above the threshold, an idle process is HEALTHY. *)
Lemma check_health_busy_is_healthy cpu rss start last :
  Health._start_time self !! p = Some start →
  Health._last_activity self !! p = Some last →
  Qltb (inject_Z (Health.memory_limit_mb self))
       (inject_Z rss / inject_Z (1024 * 1024)) = false →
  Qltb (inject_Z (Health.activity_timeout self)) (Health.t_activity ck - last)
    = true →
  Health.use_cpu_detection self = true →
  Qleb (Health.cpu_threshold self) cpu = true →
  ∃ r, Health.check_health self (Health.Sample cpu rss true) ck p = Returned r
       ∧ Health.status r = Health.HEALTHY.
Proof.
  intros Hs Hl Hmem Hidle Hcpu Hthr.
  unfold Health.check_health, Health.check_health_with, Health.check_body.
  rewrite Hs, Hl. simpl. rewrite Hmem, Hidle, Hcpu, Hthr. simpl.
  eexists. split; reflexivity.
Qed.

End HealthAsShipped.

(** C4, on the code.  A checker with the default settings, a registered
    process that runs within the memory limit, 2000 s without activity
    (limit 1200 s) and 0% CPU (threshold 1%): the claim has HUNG, the code
    reports NOT_FOUND, with the [AttributeError] of [logger.warning] as its
    message. *)
Theorem check_health_reports_not_found_for_hung_process :
  Health.check_health
    (Health.register_process Health.default_checker 4242 0)
    idle_process (Health.Build_clock 2000 2000 2000) 4242
  = Returned
      (Health.Build_HealthReport 4242 Health.NOT_FOUND 0 0 0 0
         (Health.MsgError
            (AttributeError "'Logger' object has no attribute 'warning'"))).
Proof. reflexivity. Qed.

(** *** With a logger that has the methods the checker calls *)

Section HealthWithWorkingLogger.

Variable logger : list string.
Variable self : Health.HealthChecker.
Variable ck : Health.clock.
Variable p : Z.
Variables (cpu : Q) (rss : Z) (start last : Q).

Hypothesis logger_complete :
  ∀ m, m ∈ ["debug"; "warning"; "error"] → m ∈ logger.
Hypothesis registered_start : Health._start_time self !! p = Some start.
Hypothesis registered_activity : Health._last_activity self !! p = Some last.
Hypothesis within_memory :
  Qltb (inject_Z (Health.memory_limit_mb self))
       (inject_Z rss / inject_Z (1024 * 1024)) = false.
Hypothesis idle_too_long :
  Qltb (inject_Z (Health.activity_timeout self)) (Health.t_activity ck - last)
  = true.

(** Were [warning] a method of the logger, an idle process would be HUNG
    unless CPU detection is on and the CPU reading reaches the threshold. *)
Lemma check_health_with_working_logger :
  ∃ r, Health.check_health_with logger self (Health.Sample cpu rss true) ck p
       = Returned r
       ∧ Health.status r
         = if Health.use_cpu_detection self
              && Qleb (Health.cpu_threshold self) cpu
           then Health.HEALTHY else Health.HUNG.
Proof.
  unfold Health.check_health_with, Health.check_body.
  rewrite registered_start, registered_activity. simpl.
  rewrite within_memory, idle_too_long.
  unfold Health.logged, Health.log, Logger.call_on.
  destruct (Health.use_cpu_detection self && Qleb (Health.cpu_threshold self) cpu);
    (rewrite bool_decide_true by (apply logger_complete; set_solver));
    eexists; split; reflexivity.
Qed.

End HealthWithWorkingLogger.

(** ** Timeouts and exceptions of a spawn *)

Lemma handle_critical_error_history sp e :
  get_critical_errors (_handle_critical_error sp e).2
  = get_critical_errors sp ++ [e].
Proof.
  unfold _handle_critical_error, get_critical_errors. simpl.
  destruct (on_critical_error sp) as [h |]; [| done].
  destruct (h _ e) as [v | ?]; [| done]. by destruct (has_value_attr v).
Qed.

(** The list of tracked processes plays no part in the decision. *)
Lemma handle_critical_error_with_spawned sp ps e :
  _handle_critical_error (with_spawned sp ps) e
  = ((_handle_critical_error sp e).1,
     with_spawned (_handle_critical_error sp e).2 ps).
Proof.
  unfold _handle_critical_error. simpl.
  destruct (on_critical_error sp) as [h |]; [| done].
  destruct (h _ e) as [v | ?]; [| done]. by destruct (has_value_attr v).
Qed.

Lemma escalate_spec sp ce result tid msg :
  escalate sp ce result tid msg
  = (if goes_on (_handle_critical_error sp ce).1
     then inr result else inl (RuntimeError msg),
     (_handle_critical_error sp ce).2).
Proof.
  unfold escalate. destruct (_handle_critical_error sp ce) as [a sp'].
  rewrite execute_escalation_action_spec. fold (goes_on a). simpl.
  by destruct (goes_on a).
Qed.

Lemma escalate_with_spawned sp ps ce result tid msg :
  escalate (with_spawned sp ps) ce result tid msg
  = ((escalate sp ce result tid msg).1,
     with_spawned (escalate sp ce result tid msg).2 ps).
Proof.
  rewrite !escalate_spec, handle_critical_error_with_spawned. done.
Qed.

Lemma escalate_history sp ce result tid msg :
  get_critical_errors (escalate sp ce result tid msg).2
  = get_critical_errors sp ++ [ce].
Proof. rewrite escalate_spec. apply handle_critical_error_history. Qed.

(** What the clause [except Exception] of [spawn_blocking] does with an
    exception [e]: one CRITICAL error goes to the history, the escalation
    runs, and the call returns a failed result or raises [RuntimeError]. *)
Lemma blocking_except_spec sp e task_label task_id w :
  ∃ ce,
    CriticalError.severity ce = CRITICAL
    ∧ CriticalError.error_details ce = Some (exn_text e)
    ∧ get_critical_errors (blocking_except sp e task_label task_id w).2
      = get_critical_errors sp ++ [ce]
    ∧ match (blocking_except sp e task_label task_id w).1 with
      | Returned r =>
          goes_on (_handle_critical_error sp ce).1 = true
          ∧ TaskResult.success r = false
          ∧ TaskResult.status r = CRITICAL_ERROR
          ∧ TaskResult.error_severity r = Some CRITICAL
          ∧ TaskResult.critical_error r = Some ce
      | Raised stop =>
          goes_on (_handle_critical_error sp ce).1 = false
          ∧ exn_class stop = "RuntimeError"
      | StillRunning => False
      end.
Proof.
  unfold blocking_except.
  match goal with |- context [escalate sp ?c ?r ?t ?m] =>
    exists c; pose proof (escalate_history sp c r t m) as Hh;
    rewrite (escalate_spec sp c r t m) in *;
    destruct (goes_on (_handle_critical_error sp c).1)
  end; simpl in *; by repeat split.
Qed.

Lemma fatal_errors_of_critical ce :
  CriticalError.severity ce = CRITICAL → fatal_errors [ce] = [].
Proof.
  intros H. unfold fatal_errors. rewrite filter_cons, H.
  by rewrite decide_False.
Qed.

Section BlockingSpawn.

Variable sp : ClaudeSpawner.t.
Variable timeout : option Z.
Variable stage_name : option string.
Variable w : world.

Let actual_timeout := int_or timeout (timeout_seconds sp).
Let run := spawn_blocking sp timeout stage_name w.

Lemma spawn_blocking_on_timeout :
  runs_past_timeout actual_timeout w →
  ∃ fatal rest,
    CriticalError.severity fatal = FATAL
    ∧ get_critical_errors run.2 = get_critical_errors sp ++ fatal :: rest
    ∧ fatal_errors rest = []
    ∧ (∀ r, run.1 = Returned r → TaskResult.success r = false)
    ∧ (goes_on (_handle_critical_error sp fatal).1 = true →
       rest = []
       ∧ ∃ r, run.1 = Returned r
              ∧ TaskResult.status r = TIMEOUT
              ∧ TaskResult.success r = false
              ∧ TaskResult.error_severity r = Some FATAL
              ∧ TaskResult.critical_error r = Some fatal).
Proof.
  intros (Hsetup & pid & elapsed & Hpopen & Hmon).
  subst run actual_timeout. unfold spawn_blocking, blocking_try in *.
  rewrite Hsetup, Hpopen, Hmon. unfold blocking_timeout_path.
  match goal with |- context [escalate _ ?c _ _ _] => set (fatal := c) end.
  exists fatal. rewrite escalate_spec.
  pose proof (handle_critical_error_history
                (with_spawned sp (_all_spawned_processes sp ++ [pid])) fatal)
    as Hh.
  rewrite handle_critical_error_with_spawned in *. cbn [fst snd] in *.
  destruct (goes_on (_handle_critical_error sp fatal).1) eqn:Hgo;
    cbn [fst snd] in *.
  - exists []. split; [done |]. split; [exact Hh |]. split; [done |].
    split; [by intros r [= <-] |]. intros _. split; [done |].
    eexists. split; [reflexivity |]. by repeat split.
  - match goal with |- context [blocking_except ?s ?e ?l ?t w] =>
      destruct (blocking_except_spec s e l t w) as (ce & Hsev & _ & Hhist & Hout)
    end.
    exists [ce]. split; [done |]. split.
    + rewrite Hhist. unfold get_critical_errors in *. simpl in *.
      rewrite Hh. by rewrite <- app_assoc.
    + split; [by apply fatal_errors_of_critical |]. split; [| done].
      intros r Hr. rewrite Hr in Hout. tauto.
Qed.

Lemma spawn_blocking_on_exception e :
  raises_during_spawn actual_timeout w e →
  ∃ ce,
    CriticalError.severity ce = CRITICAL
    ∧ CriticalError.error_details ce = Some (exn_text e)
    ∧ get_critical_errors run.2 = get_critical_errors sp ++ [ce]
    ∧ match run.1 with
      | Returned r =>
          goes_on (_handle_critical_error sp ce).1 = true
          ∧ TaskResult.success r = false
          ∧ TaskResult.status r = CRITICAL_ERROR
          ∧ TaskResult.error_severity r = Some CRITICAL
          ∧ TaskResult.critical_error r = Some ce
      | Raised stop =>
          goes_on (_handle_critical_error sp ce).1 = false
          ∧ exn_class stop = "RuntimeError"
      | StillRunning => False
      end.
Proof.
  intros [Hsetup Hraise]. subst run actual_timeout.
  unfold spawn_blocking, blocking_try in *. rewrite Hsetup.
  destruct Hraise as [Hpopen | (pid & Hpopen & Hmon)]; rewrite Hpopen.
  - apply blocking_except_spec.
  - rewrite Hmon.
    match goal with |- context [blocking_except ?s ?x ?l ?t w] =>
      destruct (blocking_except_spec s x l t w) as (ce & Hsev & Hdet & Hhist & Hout)
    end.
    exists ce. repeat split; try done.
    by rewrite handle_critical_error_with_spawned in Hout.
Qed.

End BlockingSpawn.

Section BackgroundSpawn.

Variable sp : ClaudeSpawner.t.
Variable task : BackgroundTask.t.
Variable on_complete : option (TaskResult.t → option exn).
Variable w : world.

Let run := _execute_task sp task on_complete w.

Lemma execute_task_on_timeout :
  runs_past_timeout (BackgroundTask.timeout task) w →
  BackgroundTask.status run.1 = TIMEOUT
  ∧ (∃ r, BackgroundTask._result run.1 = Some r
          ∧ TaskResult.success r = false
          ∧ TaskResult.status r = TIMEOUT
          ∧ TaskResult.error_severity r = None
          ∧ TaskResult.critical_error r = None)
  ∧ get_critical_errors run.2 = get_critical_errors sp.
Proof.
  intros (Hsetup & pid & elapsed & Hpopen & Hmon).
  subst run. unfold _execute_task. rewrite Hsetup, Hpopen, Hmon. simpl.
  split; [done |]. split; [| done]. eexists. by repeat split.
Qed.

Lemma execute_task_on_exception e :
  raises_during_spawn (BackgroundTask.timeout task) w e →
  BackgroundTask.status run.1 = FAILED
  ∧ BackgroundTask._result run.1
    = Some (TaskResult.Build false "" (Some (exn_text e)) (-1)
              (w_end w - w_start w) FAILED None None)
  ∧ get_critical_errors run.2 = get_critical_errors sp.
Proof.
  intros [Hsetup Hraise]. subst run. unfold _execute_task. rewrite Hsetup.
  destruct Hraise as [Hpopen | (pid & Hpopen & Hmon)]; rewrite Hpopen.
  - done.
  - by rewrite Hmon.
Qed.

End BackgroundSpawn.

Lemma sleeper_runs_past_timeout : runs_past_timeout 5 sleeper.
Proof.
  unfold runs_past_timeout. split; [reflexivity |].
  eexists 4242, _. split; reflexivity.
Qed.

Lemma no_such_command_raises timeout :
  raises_during_spawn timeout no_such_command
    (Exn "FileNotFoundError" ["OSError"]
         "[Errno 2] No such file or directory: 'claude'").
Proof. split; [reflexivity |]. by left. Qed.

(** C1, as the code has it.  In [spawn_blocking] a spawn that runs past its
    timeout appends exactly one FATAL error to the history (what may follow
    it is not FATAL), every result it returns has [success=false], and when
    the decision on that error lets the pipeline go on it returns the result
    with status TIMEOUT, severity FATAL and that error.  In [_execute_task]
    the task ends in status TIMEOUT and its result has status TIMEOUT and
    [success=false], but carries no error and the history is left as it
    was. *)
Theorem timeout_is_escalated_by_spawn_blocking_only :
  (∀ sp timeout stage_name w,
     runs_past_timeout (int_or timeout (timeout_seconds sp)) w →
     let run := spawn_blocking sp timeout stage_name w in
     ∃ fatal rest,
       CriticalError.severity fatal = FATAL
       ∧ get_critical_errors run.2 = get_critical_errors sp ++ fatal :: rest
       ∧ fatal_errors rest = []
       ∧ (∀ r, run.1 = Returned r → TaskResult.success r = false)
       ∧ (goes_on (_handle_critical_error sp fatal).1 = true →
          rest = []
          ∧ ∃ r, run.1 = Returned r
                 ∧ TaskResult.status r = TIMEOUT
                 ∧ TaskResult.success r = false
                 ∧ TaskResult.error_severity r = Some FATAL
                 ∧ TaskResult.critical_error r = Some fatal))
  ∧ (∀ sp task on_complete w,
       runs_past_timeout (BackgroundTask.timeout task) w →
       let run := _execute_task sp task on_complete w in
       BackgroundTask.status run.1 = TIMEOUT
       ∧ (∃ r, BackgroundTask._result run.1 = Some r
               ∧ TaskResult.success r = false
               ∧ TaskResult.status r = TIMEOUT
               ∧ TaskResult.error_severity r = None
               ∧ TaskResult.critical_error r = None)
       ∧ get_critical_errors run.2 = get_critical_errors sp).
Proof.
  split.
  - intros sp timeout stage_name w. apply spawn_blocking_on_timeout.
  - intros sp task on_complete w. apply execute_task_on_timeout.
Qed.

Lemma timeout_is_escalated_by_spawn_blocking_only_witness :
  (∃ fatal rest,
     CriticalError.severity fatal = FATAL
     ∧ get_critical_errors
         (spawn_blocking fresh_spawner (Some 5) (Some "review") sleeper).2
       = fatal :: rest
     ∧ fatal_errors rest = [])
  ∧ get_critical_errors
      (_execute_task fresh_spawner review_task None sleeper).2 = [].
Proof.
  destruct timeout_is_escalated_by_spawn_blocking_only as [Hblock Hback].
  split.
  - destruct (Hblock fresh_spawner (Some 5) (Some "review") sleeper)
      as (fatal & rest & Hsev & Hhist & Hrest & _).
    + exact sleeper_runs_past_timeout.
    + exists fatal, rest. auto.
  - apply (Hback fresh_spawner review_task None sleeper).
    exact sleeper_runs_past_timeout.
Defined.

(** C1, as stated, fails on the background path: the task of [review_task]
    runs past its timeout of 5 s and the history of the spawner stays
    empty. *)
Lemma background_timeout_appends_no_error :
  runs_past_timeout (BackgroundTask.timeout review_task) sleeper
  ∧ get_critical_errors
      (_execute_task fresh_spawner review_task None sleeper).2 = []
  ∧ ¬ (blocking_timeout_is_escalated ∧ background_timeout_is_escalated).
Proof.
  split; [exact sleeper_runs_past_timeout |]. split; [reflexivity |].
  intros [_ Hback].
  destruct (Hback fresh_spawner review_task None sleeper
              sleeper_runs_past_timeout) as (_ & _ & Hlen).
  discriminate Hlen.
Qed.

(** C3, as the code has it.  In [spawn_blocking] an exception raised while
    the process is started or watched gives one CriticalError of severity
    CRITICAL, whatever the error text and exit code are, which is appended
    to the history; the escalation policy then decides: the call returns a
    result with [success=false] and status CRITICAL_ERROR when the pipeline
    goes on, and raises [RuntimeError] when it stops.  In [_execute_task]
    the exception gives status FAILED and a result with [success=false], and
    no error is built, stored or escalated. *)
Theorem exception_is_escalated_by_spawn_blocking_only :
  (∀ sp timeout stage_name w e,
     raises_during_spawn (int_or timeout (timeout_seconds sp)) w e →
     let run := spawn_blocking sp timeout stage_name w in
     ∃ ce,
       CriticalError.severity ce = CRITICAL
       ∧ CriticalError.error_details ce = Some (exn_text e)
       ∧ get_critical_errors run.2 = get_critical_errors sp ++ [ce]
       ∧ match run.1 with
         | Returned r =>
             goes_on (_handle_critical_error sp ce).1 = true
             ∧ TaskResult.success r = false
             ∧ TaskResult.status r = CRITICAL_ERROR
             ∧ TaskResult.error_severity r = Some CRITICAL
             ∧ TaskResult.critical_error r = Some ce
         | Raised stop =>
             goes_on (_handle_critical_error sp ce).1 = false
             ∧ exn_class stop = "RuntimeError"
         | StillRunning => False
         end)
  ∧ (∀ sp task on_complete w e,
       raises_during_spawn (BackgroundTask.timeout task) w e →
       let run := _execute_task sp task on_complete w in
       BackgroundTask.status run.1 = FAILED
       ∧ BackgroundTask._result run.1
         = Some (TaskResult.Build false "" (Some (exn_text e)) (-1)
                   (w_end w - w_start w) FAILED None None)
       ∧ get_critical_errors run.2 = get_critical_errors sp).
Proof.
  split.
  - intros sp timeout stage_name w e. apply spawn_blocking_on_exception.
  - intros sp task on_complete w e. apply execute_task_on_exception.
Qed.

Lemma exception_is_escalated_by_spawn_blocking_only_witness :
  (∃ ce,
     CriticalError.severity ce = CRITICAL
     ∧ get_critical_errors
         (spawn_blocking fresh_spawner None (Some "develop") no_such_command).2
       = [ce])
  ∧ BackgroundTask.status
      (_execute_task fresh_spawner review_task None no_such_command).1
    = FAILED.
Proof.
  destruct exception_is_escalated_by_spawn_blocking_only as [Hblock Hback].
  split.
  - destruct (Hblock fresh_spawner None (Some "develop") no_such_command _
                (no_such_command_raises _)) as (ce & Hsev & _ & Hhist & _).
    exists ce. auto.
  - eapply (Hback fresh_spawner review_task None no_such_command).
    apply no_such_command_raises.
Defined.

(** C3, as stated, fails on the background path: the launch of
    [no_such_command] raises, the task ends FAILED, and the history of the
    spawner stays empty. *)
Lemma background_exception_appends_no_error :
  raises_during_spawn (BackgroundTask.timeout review_task) no_such_command
    (Exn "FileNotFoundError" ["OSError"]
         "[Errno 2] No such file or directory: 'claude'")
  ∧ get_critical_errors
      (_execute_task fresh_spawner review_task None no_such_command).2 = []
  ∧ ¬ (blocking_exception_is_escalated ∧ background_exception_is_escalated).
Proof.
  split; [apply no_such_command_raises |]. split; [reflexivity |].
  intros [_ Hback].
  destruct (Hback fresh_spawner review_task None no_such_command _
              (no_such_command_raises _)) as (ce & _ & Hhist).
  simpl in Hhist. discriminate Hhist.
Qed.

(** ** The same inputs through the other branches *)

(** Membership of a method name in a literal method table. *)
Ltac known_method :=
  match goal with
  | Hm : _ ∈ _ |- _ =>
      repeat (apply elem_of_cons in Hm as [-> | Hm]);
      try (by apply elem_of_nil in Hm);
      repeat first [apply list_elem_of_here | apply list_elem_of_further]
  end.

(** The hypotheses of [retry_with_working_logger_exhausts] can be met: the
    logger of the repository with a [warning] method added, the default
    configuration, and an operation that always fails. *)
Example retry_with_a_warning_method :
  ∃ tr,
    Retry.retry_with ("warning" :: Logger.methods) Retry.default_config
      always_flaky
    = (Raised (ValueError "flaky"), tr)
    ∧ Retry.invocations tr = 3%nat
    ∧ length (Retry.slept tr) = 2%nat.
Proof.
  destruct (retry_with_working_logger_exhausts
              ("warning" :: Logger.methods) Retry.default_config always_flaky)
    as (e & tr & Hrun & He & Hn).
  - intros m Hm. known_method.
  - intros k. by exists (ValueError "flaky").
  - intros n d Hn [= <-]. unfold py_min. simpl.
    destruct (Qltb _ _); [discriminate |].
    apply Qmult_le_0_compat; [discriminate |].
    apply Qpower_0_le. discriminate.
  - simpl. lia.
  - exists tr. injection He as <-. split; [exact Hrun |]. split; [exact Hn |].
    by injection Hrun as <-.
Qed.

(** The failing input of the health checker, with a [warning] method added
    to the logger: HUNG. *)
Example check_health_with_a_warning_method :
  ∃ r,
    Health.check_health_with ("warning" :: Logger.methods)
      (Health.register_process Health.default_checker 4242 0)
      idle_process (Health.Build_clock 2000 2000 2000) 4242
    = Returned r
    ∧ Health.status r = Health.HUNG.
Proof.
  apply (check_health_with_working_logger
           ("warning" :: Logger.methods)
           (Health.register_process Health.default_checker 4242 0)
           (Health.Build_clock 2000 2000 2000) 4242 0 (100 * 1024 * 1024) 0 0);
    try reflexivity.
  intros m Hm. known_method.
Qed.

(** The same process with 50% CPU is HEALTHY, also with the logger of the
    repository. *)
Example check_health_busy_process :
  ∃ r,
    Health.check_health
      (Health.register_process Health.default_checker 4242 0)
      (Health.Sample 50 (100 * 1024 * 1024) true)
      (Health.Build_clock 2000 2000 2000) 4242
    = Returned r
    ∧ Health.status r = Health.HEALTHY.
Proof.
  by apply (check_health_busy_is_healthy _ _ _ _ _ 0%Q 0%Q).
Qed.

(** A blocking spawn that times out under the default policy
    STOP_PIPELINE: the [RuntimeError] raised for the timeout is caught by
    the [except] clause of the same [try], which records a second, CRITICAL
    error and raises again. *)
Example blocking_timeout_under_stop_pipeline :
  let run := spawn_blocking fresh_spawner (Some 5) (Some "review") sleeper in
  run.1
  = Raised (RuntimeError
              "Pipeline stopped due to exception in review: Pipeline stopped due to timeout in review")
  ∧ CriticalError.severity <$> get_critical_errors run.2 = [FATAL; CRITICAL].
Proof. split; reflexivity. Qed.

(** With a callback that stops on FATAL only, the same spawn returns the
    result built by the [except] clause: status CRITICAL_ERROR. *)
Example blocking_timeout_under_stop_on_fatal :
  let sp := ClaudeSpawner.Build 600 (Some stop_on_fatal) STOP_PIPELINE [] [] in
  let run := spawn_blocking sp (Some 5) (Some "review") sleeper in
  (∃ r, run.1 = Returned r ∧ TaskResult.status r = CRITICAL_ERROR)
  ∧ CriticalError.severity <$> get_critical_errors run.2 = [FATAL; CRITICAL].
Proof. split; [eexists; split; reflexivity | reflexivity]. Qed.

(** * Further properties *)

(** ** The classifier *)

(** [_classify_error_severity] answers FATAL for the status TIMEOUT and for
    nothing else: no error text and no exit code make a failure FATAL. *)
Theorem classifier_fatal_only_for_timeout c s st :
  _classify_error_severity c s st = FATAL ↔ st = TIMEOUT.
Proof.
  unfold _classify_error_severity.
  destruct (decide (st = TIMEOUT)) as [-> | Hne]; [done |].
  split; [| by intros ->].
  destruct (any_pattern_in critical_patterns _); [done |].
  destruct (any_pattern_in recoverable_patterns _); [done |].
  by destruct (c =? 0), (c <? 0), (c >=? 100).
Qed.

Lemma lower_app a b : lower (a +:+ b) = lower a +:+ lower b.
Proof. induction a as [| c a IH]; simpl; [done | by rewrite IH]. Qed.

Lemma starts_with_app p s t :
  starts_with p s = true → starts_with p (s +:+ t) = true.
Proof.
  revert s. induction p as [| a p IH]; intros [| b s]; simpl; try done.
  destruct (decide (a = b)); [apply IH | done].
Qed.

Lemma py_in_app_r p s t : py_in p s = true → py_in p (s +:+ t) = true.
Proof.
  induction s as [| b s IH].
  - simpl. rewrite orb_false_r. destruct p; [| done]. intros _.
    by destruct t.
  - cbn [py_in]. change (String b s +:+ t) with (String b (s +:+ t)).
    cbn [py_in]. rewrite !orb_true_iff. intros [H | H].
    + left. by apply (starts_with_app p (String b s) t).
    + right. by apply IH.
Qed.

Lemma py_in_app_l p s t : py_in p s = true → py_in p (t +:+ s) = true.
Proof.
  intros H. induction t as [| b t IH]; [done |].
  change (String b t +:+ s) with (String b (t +:+ s)).
  cbn [py_in]. rewrite IH. apply orb_true_r.
Qed.

Lemma any_pattern_in_surrounded patterns s before after :
  any_pattern_in patterns s = true →
  any_pattern_in patterns (before +:+ s +:+ after) = true.
Proof.
  induction patterns as [| p ps IH]; simpl; [done |].
  destruct (py_in (lower p) s) eqn:Hp.
  - intros _. rewrite py_in_app_l; [done |]. by apply py_in_app_r.
  - intros H. rewrite IH by done. by case_match.
Qed.

(** A critical pattern in the error text is not masked by what is written
    before or after it: with any text around it, and whatever the exit code,
    the severity stays CRITICAL. *)
Theorem classifier_critical_text_is_not_masked c s st before after :
  st ≠ TIMEOUT →
  any_pattern_in critical_patterns (lower s) = true →
  _classify_error_severity c (before +:+ s +:+ after) st = CRITICAL.
Proof.
  intros Hst Hs. unfold _classify_error_severity.
  destruct (decide (st = TIMEOUT)); [done |].
  rewrite !lower_app.
  by rewrite any_pattern_in_surrounded.
Qed.

Lemma classifier_critical_text_is_not_masked_witness :
  _classify_error_severity 1
    ("Try again later. " +:+ "error: Disk Full" +:+ " (connection timeout)")
    FAILED
  = CRITICAL.
Proof.
  apply classifier_critical_text_is_not_masked; [discriminate | reflexivity].
Defined.

(** ** [spawn_blocking] on all its paths *)

Lemma remove_first_app_fresh x l : x ∉ l → remove_first x (l ++ [x]) = l.
Proof.
  induction l as [| y l IH]; simpl; intros Hx.
  - by rewrite decide_True.
  - apply not_elem_of_cons in Hx as [Hne Hx].
    rewrite decide_False by done. by rewrite IH.
Qed.

Lemma handle_critical_error_tracked sp e :
  _all_spawned_processes (_handle_critical_error sp e).2
  = _all_spawned_processes sp.
Proof.
  unfold _handle_critical_error. simpl.
  destruct (on_critical_error sp) as [h |]; [| done].
  destruct (h _ e) as [v | ?]; [| done]. by destruct (has_value_attr v).
Qed.



(** The shape of every run of the clause [except Exception]. *)
Lemma blocking_except_shape sp e task_label task_id w :
  ∃ ce,
    CriticalError.severity ce = CRITICAL
    ∧ CriticalError.stage_name ce = task_label
    ∧ CriticalError.task_id ce = task_id
    ∧ get_critical_errors (blocking_except sp e task_label task_id w).2
      = get_critical_errors sp ++ [ce]
    ∧ _all_spawned_processes (blocking_except sp e task_label task_id w).2
      = _all_spawned_processes sp
    ∧ ((goes_on (_handle_critical_error sp ce).1 = true
        ∧ ∃ r, (blocking_except sp e task_label task_id w).1 = Returned r
               ∧ TaskResult.success r = false
               ∧ TaskResult.status r = CRITICAL_ERROR
               ∧ TaskResult.critical_error r = Some ce)
       ∨ (goes_on (_handle_critical_error sp ce).1 = false
          ∧ (blocking_except sp e task_label task_id w).1
            = Raised (RuntimeError
                        ("Pipeline stopped due to exception in " +:+
                         task_label +:+ ": " +:+ exn_text e)))).
Proof.
  unfold blocking_except.
  match goal with |- context [escalate sp ?c _ _ _] => set (ce := c) end.
  exists ce. rewrite escalate_spec.
  pose proof (handle_critical_error_history sp ce) as Hh.
  pose proof (handle_critical_error_tracked sp ce) as Ht.
  destruct (goes_on (_handle_critical_error sp ce).1); cbn [fst snd].
  - repeat split; try done. left. split; [done |]. eexists. by repeat split.
  - repeat split; try done. by right.
Qed.

(** The case analysis of [spawn_blocking] that the proofs below share. *)
Ltac blocking_paths :=
  unfold spawn_blocking, blocking_try, blocking_timeout_path,
    blocking_exit_path;
  destruct (w_setup _) as [setup_error |] eqn:Hsetup;
  [ | destruct (w_popen _) as [launch_error | pid] eqn:Hpopen;
      [ | destruct (monitor _ _ _) as [ | elapsed | fault ] eqn:Hmon;
          [ destruct (w_returncode _ =? 0) eqn:Hrc;
            [ | destruct (bool_decide (_ ∨ _)) eqn:Hsev ] | | ] ] ];
  rewrite ?escalate_spec; cbn [fst snd].

(** What [escalate] leaves in the [match] of [spawn_blocking], by the
    decision. *)
Ltac by_decision :=
  match goal with
  | |- context [goes_on (_handle_critical_error ?s ?c).1] =>
      let Hgo := fresh "Hgo" in
      destruct (goes_on (_handle_critical_error s c).1) eqn:Hgo; cbn [fst snd]
  end.

(** [spawn_blocking] returns a result with [success=true] exactly when the
    output files were made, the process was started, left the polling loop
    by exiting, and exited with code 0; the result then carries the output
    and no error, and nothing is added to the history. *)
Theorem spawn_blocking_succeeds_exactly_on_exit_0 sp timeout stage_name w :
  let run := spawn_blocking sp timeout stage_name w in
  let clean_exit :=
    w_setup w = None
    ∧ (∃ pid, w_popen w = inr pid)
    ∧ monitor (w_start w) (int_or timeout (timeout_seconds sp)) (w_polls w)
      = Exited
    ∧ w_returncode w = 0 in
  (clean_exit →
   run.1 = Returned (TaskResult.Build true (w_stdout w)
                       (str_or_none (w_stderr w)) 0 (w_end w - w_start w)
                       COMPLETED None None)
   ∧ get_critical_errors run.2 = get_critical_errors sp)
  ∧ (∀ r, run.1 = Returned r → TaskResult.success r = true → clean_exit).
Proof.
  intros run clean_exit. subst run clean_exit. split.
  - intros (Hs & [pid Hp] & Hm & Hrc).
    unfold spawn_blocking, blocking_try, blocking_exit_path.
    rewrite Hs, Hp, Hm, Hrc. done.
  - intros r. blocking_paths.
    + done.
    + destruct (blocking_except_shape sp launch_error
                  (str_or stage_name "task")
                  (str_or stage_name "task" +:+ "_" +:+ pretty (w_stamp w)) w)
        as (ce & _ & _ & _ & _ & _ & [(_ & r' & -> & Hs & _) | (_ & ->)]);
        [intros [= <-]; congruence | done].
    + intros _ _. apply Z.eqb_eq in Hrc. eauto.
    + by_decision.
      * by intros [= <-].
      * match goal with |- context [blocking_except ?s ?e ?l ?t w] =>
          destruct (blocking_except_shape s e l t w)
            as (ce & _ & _ & _ & _ & _ & [(_ & r' & -> & Hs & _) | (_ & ->)])
        end; [intros [= <-]; congruence | done].
    + by intros [= <-].
    + by_decision.
      * by intros [= <-].
      * match goal with |- context [blocking_except ?s ?e ?l ?t w] =>
          destruct (blocking_except_shape s e l t w)
            as (ce & _ & _ & _ & _ & _ & [(_ & r' & -> & Hs & _) | (_ & ->)])
        end; [intros [= <-]; congruence | done].
    + match goal with |- context [blocking_except ?s ?e ?l ?t w] =>
        destruct (blocking_except_shape s e l t w)
          as (ce & _ & _ & _ & _ & _ & [(_ & r' & -> & Hs & _) | (_ & ->)])
      end; [intros [= <-]; congruence | done].
Qed.

Lemma spawn_blocking_succeeds_exactly_on_exit_0_witness :
  (spawn_blocking fresh_spawner None (Some "develop") quick_success).1
  = Returned (TaskResult.Build true "OK" None 0 1 COMPLETED None None)
  ∧ get_critical_errors
      (spawn_blocking fresh_spawner None (Some "develop") quick_success).2
    = [].
Proof.
  apply (spawn_blocking_succeeds_exactly_on_exit_0
           fresh_spawner None (Some "develop") quick_success).
  split; [reflexivity |]. split; [by exists 4242 |]. split; reflexivity.
Defined.

(** A failure that the classifier calls RECOVERABLE (the output files were
    made, the process ran and exited) is returned as data under every
    escalation policy: the result has [success=false], the exit code
    and the severity, no CriticalError, and its status is the default of
    [TaskResult], COMPLETED; nothing is added to the history. *)
Theorem spawn_blocking_returns_recoverable_failure
    sp timeout stage_name w pid :
  w_setup w = None →
  w_popen w = inr pid →
  monitor (w_start w) (int_or timeout (timeout_seconds sp)) (w_polls w)
  = Exited →
  w_returncode w ≠ 0 →
  _classify_error_severity (w_returncode w) (w_stderr w) FAILED = RECOVERABLE →
  let run := spawn_blocking sp timeout stage_name w in
  run.1 = Returned (TaskResult.Build false (w_stdout w)
                      (str_or_none (w_stderr w)) (w_returncode w)
                      (w_end w - w_start w) COMPLETED (Some RECOVERABLE) None)
  ∧ get_critical_errors run.2 = get_critical_errors sp.
Proof.
  intros Hs Hp Hm Hrc Hsev run. subst run.
  unfold spawn_blocking, blocking_try, blocking_exit_path.
  rewrite Hs, Hp, Hm, Hsev.
  destruct (Z.eqb_spec (w_returncode w) 0) as [| _]; [done |].
  rewrite bool_decide_false by (by intros [|]). done.
Qed.

Lemma spawn_blocking_returns_recoverable_failure_witness :
  (spawn_blocking fresh_spawner None (Some "test") plain_failure).1
  = Returned (TaskResult.Build false "" (Some "tests failed") 1 1 COMPLETED
                (Some RECOVERABLE) None).
Proof.
  apply (spawn_blocking_returns_recoverable_failure
           fresh_spawner None (Some "test") plain_failure 4242);
    try reflexivity.
  discriminate.
Defined.

Lemma starts_with_append a b c :
  starts_with (a +:+ b) (a +:+ b +:+ c) = true.
Proof.
  induction a as [| x a IH]; simpl.
  - induction b as [| y b IH]; simpl; [done |]. by rewrite decide_True.
  - by rewrite decide_True.
Qed.

(** The two kinds of exception that leave [spawn_blocking].  One is the
    exception of [mkdir] or [open] before the [try]: it passes as it is, and
    the spawner is left untouched (nothing stored, nothing escalated).  The
    other comes out of the clause [except Exception]: it is a [RuntimeError]
    whose text begins "Pipeline stopped due to exception in <label>", also
    after a timeout or a critical exit code, and the last entry of the
    history is then the CRITICAL error of that clause. *)
Theorem spawn_blocking_raises_raw_or_from_its_except_clause
    sp timeout stage_name w e :
  let run := spawn_blocking sp timeout stage_name w in
  run.1 = Raised e →
  (w_setup w = Some e ∧ run.2 = sp)
  ∨ (w_setup w = None
     ∧ exn_class e = "RuntimeError"
     ∧ starts_with
         ("Pipeline stopped due to exception in " +:+ str_or stage_name "task")
         (exn_text e) = true
     ∧ ∃ earlier ce,
         get_critical_errors run.2 = earlier ++ [ce]
         ∧ CriticalError.severity ce = CRITICAL).
Proof.
  intros run. subst run.
  assert (Hexc : ∀ s x,
    (blocking_except s x (str_or stage_name "task")
       (str_or stage_name "task" +:+ "_" +:+ pretty (w_stamp w)) w).1
    = Raised e →
    exn_class e = "RuntimeError"
    ∧ starts_with
        ("Pipeline stopped due to exception in " +:+ str_or stage_name "task")
        (exn_text e) = true
    ∧ ∃ earlier ce,
        get_critical_errors
          (blocking_except s x (str_or stage_name "task")
             (str_or stage_name "task" +:+ "_" +:+ pretty (w_stamp w)) w).2
        = earlier ++ [ce]
        ∧ CriticalError.severity ce = CRITICAL).
  { intros s x.
    destruct (blocking_except_shape s x (str_or stage_name "task")
                (str_or stage_name "task" +:+ "_" +:+ pretty (w_stamp w)) w)
      as (ce & Hsev & _ & _ & Hh & _ & [(_ & r & -> & _) | (_ & ->)]);
      [done |].
    intros [= <-]. split; [done |]. split; [apply starts_with_append |].
    by exists (get_critical_errors s), ce. }
  blocking_paths;
    [ intros [= <-]; by left
    | try by_decision; try done; intros He; right; (split; [done |]);
      revert He; apply Hexc .. ].
Qed.

Lemma spawn_blocking_raises_raw_or_from_its_except_clause_witness :
  (let run := spawn_blocking fresh_spawner (Some 5) (Some "review") sleeper in
   let e := RuntimeError
     "Pipeline stopped due to exception in review: Pipeline stopped due to timeout in review" in
   run.1 = Raised e
   ∧ ∃ earlier ce,
       get_critical_errors run.2 = earlier ++ [ce]
       ∧ CriticalError.severity ce = CRITICAL)
  ∧ (let run := spawn_blocking fresh_spawner None (Some "review") no_temp_dir in
     run.1 = Raised (Exn "FileNotFoundError" ["OSError"]
                         "[Errno 2] No such file or directory: '/srv/app/.orchestrate-temp'")
     ∧ run.2 = fresh_spawner).
Proof.
  split.
  - intros run e. split; [reflexivity |].
    destruct (spawn_blocking_raises_raw_or_from_its_except_clause
                fresh_spawner (Some 5) (Some "review") sleeper e eq_refl)
      as [[Hs _] | (_ & _ & _ & Hh)]; [discriminate Hs | exact Hh].
  - intros run. split; [reflexivity |].
    destruct (spawn_blocking_raises_raw_or_from_its_except_clause
                fresh_spawner None (Some "review") no_temp_dir _ eq_refl)
      as [[_ Hsp] | (Hs & _)]; [exact Hsp | discriminate Hs].
Defined.

Lemma spawn_blocking_added_entries sp timeout stage_name w :
  ∃ added,
    get_critical_errors (spawn_blocking sp timeout stage_name w).2
    = get_critical_errors sp ++ added
    ∧ (length added ≤ 2)%nat
    ∧ Forall (λ ce, CriticalError.stage_name ce = str_or stage_name "task"
                    ∧ CriticalError.severity ce ≠ RECOVERABLE) added.
Proof.
  assert (Hexc : ∀ s x before,
    get_critical_errors s = get_critical_errors sp ++ before →
    (length before ≤ 1)%nat →
    Forall (λ ce, CriticalError.stage_name ce = str_or stage_name "task"
                  ∧ CriticalError.severity ce ≠ RECOVERABLE) before →
    ∃ added,
      get_critical_errors
        (blocking_except s x (str_or stage_name "task")
           (str_or stage_name "task" +:+ "_" +:+ pretty (w_stamp w)) w).2
      = get_critical_errors sp ++ added
      ∧ (length added ≤ 2)%nat
      ∧ Forall (λ ce, CriticalError.stage_name ce = str_or stage_name "task"
                      ∧ CriticalError.severity ce ≠ RECOVERABLE) added).
  { intros s x before Hs Hlen Hall.
    destruct (blocking_except_shape s x (str_or stage_name "task")
                (str_or stage_name "task" +:+ "_" +:+ pretty (w_stamp w)) w)
      as (ce & Hsev & Hlab & _ & Hh & _).
    exists (before ++ [ce]). rewrite Hh, Hs, app_assoc. split; [done |].
    split; [rewrite length_app; simpl; lia |].
    apply Forall_app. split; [done |]. constructor; [| done].
    split; [done |]. by rewrite Hsev. }
  assert (Hnone : ∃ added : list CriticalError.t,
    get_critical_errors sp = get_critical_errors sp ++ added
    ∧ (length added ≤ 2)%nat
    ∧ Forall (λ ce, CriticalError.stage_name ce = str_or stage_name "task"
                    ∧ CriticalError.severity ce ≠ RECOVERABLE) added).
  { exists []. rewrite app_nil_r. split; [done |]. split; [simpl; lia | done]. }
  blocking_paths.
  - exact Hnone.
  - apply (Hexc _ _ []); [by rewrite app_nil_r | simpl; lia | done].
  - exact Hnone.
  - apply bool_decide_eq_true in Hsev.
    match goal with |- context [_handle_critical_error ?s ?c] =>
      pose proof (handle_critical_error_history s c) as Hh;
      assert (Hone : Forall
                (λ ce, CriticalError.stage_name ce = str_or stage_name "task"
                       ∧ CriticalError.severity ce ≠ RECOVERABLE) [c])
        by (constructor; [split; [done | simpl; by destruct Hsev as [-> | ->]]
                         | done])
    end.
    by_decision.
    + eexists. split; [exact Hh |]. split; [simpl; lia | exact Hone].
    + eapply Hexc; [exact Hh | simpl; lia | exact Hone].
  - exact Hnone.
  - match goal with |- context [_handle_critical_error ?s ?c] =>
      pose proof (handle_critical_error_history s c) as Hh;
      assert (Hone : Forall
                (λ ce, CriticalError.stage_name ce = str_or stage_name "task"
                       ∧ CriticalError.severity ce ≠ RECOVERABLE) [c])
        by (by repeat constructor)
    end.
    by_decision.
    + eexists. split; [exact Hh |]. split; [simpl; lia | exact Hone].
    + eapply Hexc; [exact Hh | simpl; lia | exact Hone].
  - apply (Hexc _ _ []); [by rewrite app_nil_r | simpl; lia | done].
Qed.

(** The history only grows: a call of [spawn_blocking] leaves the old
    entries in place and adds at most two (none when the output files could
    not be made), each with the stage label of the call and a severity other
    than RECOVERABLE. *)
Theorem spawn_blocking_appends_to_history sp timeout stage_name w :
  ∃ added,
    get_critical_errors (spawn_blocking sp timeout stage_name w).2
    = get_critical_errors sp ++ added
    ∧ (length added ≤ 2)%nat
    ∧ Forall (λ ce, CriticalError.stage_name ce = str_or stage_name "task"
                    ∧ CriticalError.severity ce ≠ RECOVERABLE) added.
Proof. apply spawn_blocking_added_entries. Qed.



Section DefaultPolicy.

Variable sp : ClaudeSpawner.t.
Variable timeout : option Z.
Variable stage_name : option string.
Variable w : world.

Hypothesis no_callback : on_critical_error sp = None.
Hypothesis files_made : w_setup w = None.








End DefaultPolicy.



Lemma blocking_except_tracked s x task_label task_id w :
  _all_spawned_processes (blocking_except s x task_label task_id w).2
  = _all_spawned_processes s.
Proof.
  by destruct (blocking_except_shape s x task_label task_id w)
    as (ce & _ & _ & _ & _ & Ht & _).
Qed.

(** Which processes stay in [_all_spawned_processes], once the output files
    are made and the process is started.  A blocking spawn takes
    its process off the list only on the path where the process has exited;
    after a timeout or a fault in the loop the process, though killed, stays
    listed.  A background task takes it off after an exit and after a
    timeout, and leaves it only after a fault. *)
Theorem spawned_process_tracking sp w pid :
  w_setup w = None →
  w_popen w = inr pid →
  (∀ timeout stage_name,
     _all_spawned_processes (spawn_blocking sp timeout stage_name w).2
     = match monitor (w_start w) (int_or timeout (timeout_seconds sp))
               (w_polls w) with
       | Exited => remove_first pid (_all_spawned_processes sp ++ [pid])
       | _ => _all_spawned_processes sp ++ [pid]
       end)
  ∧ (∀ task on_complete,
       _all_spawned_processes (_execute_task sp task on_complete w).2
       = match monitor (w_start w) (BackgroundTask.timeout task)
                 (w_polls w) with
         | Faulted _ => _all_spawned_processes sp ++ [pid]
         | _ => remove_first pid (_all_spawned_processes sp ++ [pid])
         end)
  ∧ (pid ∉ _all_spawned_processes sp →
     remove_first pid (_all_spawned_processes sp ++ [pid])
     = _all_spawned_processes sp).
Proof.
  intros Hs Hp. split; [| split].
  - intros timeout stage_name.
    unfold spawn_blocking, blocking_try, blocking_timeout_path,
      blocking_exit_path.
    rewrite Hs, Hp.
    destruct (monitor _ _ _) as [ | elapsed | fault ];
      [ destruct (w_returncode _ =? 0);
        [ | destruct (bool_decide (_ ∨ _)) ] | | ];
      rewrite ?escalate_spec; cbn [fst snd]; try by_decision;
      rewrite ?blocking_except_tracked, ?handle_critical_error_tracked;
      done.
  - intros task on_complete. unfold _execute_task. rewrite Hs, Hp.
    by destruct (monitor _ _ _).
  - apply remove_first_app_fresh.
Qed.

Lemma spawned_process_tracking_witness :
  _all_spawned_processes
    (spawn_blocking fresh_spawner (Some 5) (Some "review") sleeper).2 = [4242]
  ∧ _all_spawned_processes
      (_execute_task fresh_spawner review_task None sleeper).2 = [].
Proof.
  destruct (spawned_process_tracking fresh_spawner sleeper 4242
              eq_refl eq_refl)
    as (Hblock & Hback & _).
  split.
  - exact (Hblock (Some 5) (Some "review")).
  - exact (Hback review_task None).
Defined.

Lemma replace_char_removes a b s :
  a ≠ b → py_in (String a EmptyString) (replace_char a b s) = false.
Proof.
  intros Hab. induction s as [| c s IH]; [done |].
  cbn [replace_char py_in starts_with]. rewrite IH, orb_false_r.
  destruct (decide (c = a)) as [-> | Hc].
  - by rewrite decide_False.
  - by rewrite decide_False by congruence.
Qed.

(** The stage label that [spawn_skill] makes from the skill name holds no
    [/]: the label of every error that such a call adds to the history is
    free of it. *)
Theorem spawn_skill_label_has_no_slash sp skill_name timeout w :
  ∃ added,
    get_critical_errors (spawn_skill sp skill_name timeout w).2
    = get_critical_errors sp ++ added
    ∧ Forall (λ ce, py_in "/" (CriticalError.stage_name ce) = false) added.
Proof.
  unfold spawn_skill.
  destruct (spawn_blocking_added_entries sp (Some timeout)
              (Some (replace_char "/" "_" skill_name)) w)
    as (added & Hh & _ & Hall).
  exists added. split; [exact Hh |].
  eapply Forall_impl; [exact Hall |]. intros ce [-> _].
  unfold str_or. case_bool_decide; [done |].
  by apply replace_char_removes.
Qed.

(** ** Background tasks *)

(** How [_execute_task] leaves its task.  The history of the spawner is
    always as before.  When the output files are made, the call ends
    normally and the task is finished: the status is COMPLETED, FAILED or
    TIMEOUT (never CRITICAL_ERROR), [is_done] holds, the result is set and
    carries the same status, [success] holds exactly for COMPLETED, and a
    blocking [get_result] on the finished task returns that result without
    sleeping, whatever the poll interval.  When [mkdir] or [open] raises,
    the exception leaves the call and the task is stranded: status RUNNING,
    the result as it was, the spawner untouched; if nothing else writes the
    task, [is_done] stays false and a blocking [get_result] never returns a
    result. *)
Theorem execute_task_finishes_or_strands_task sp task on_complete w :
  let run := _execute_task sp task on_complete w in
  get_critical_errors run.2 = get_critical_errors sp
  ∧ (w_setup w = None →
     _execute_task_raises w = None
     ∧ BackgroundTask.is_done run.1 = true
     ∧ ∃ r,
         BackgroundTask._result run.1 = Some r
         ∧ TaskResult.status r = BackgroundTask.status run.1
         ∧ (TaskResult.success r = true
            ↔ BackgroundTask.status run.1 = COMPLETED)
         ∧ TaskResult.critical_error r = None
         ∧ ∀ fuel poll_interval now,
             BackgroundTask.get_result fuel (λ _, run.1) true poll_interval now
             = Returned r)
  ∧ (∀ e, w_setup w = Some e →
       _execute_task_raises w = Some e
       ∧ run.2 = sp
       ∧ BackgroundTask.status run.1 = RUNNING
       ∧ BackgroundTask._result run.1 = BackgroundTask._result task
       ∧ BackgroundTask.is_running run.1 = true
       ∧ BackgroundTask.is_done run.1 = false
       ∧ ∀ fuel poll_interval now r,
           BackgroundTask.get_result fuel (λ _, run.1) true poll_interval now
           ≠ Returned r).
Proof.
  intros run. subst run. unfold _execute_task, _execute_task_raises.
  destruct (w_setup w) as [e0 |].
  - split; [done |]. split; [done |]. intros e [= <-]. cbn [fst snd].
    repeat (split; [done |]).
    intros fuel poll_interval now r. unfold BackgroundTask.get_result.
    rewrite wait_done_never_done by done.
    destruct (py_sleep poll_interval); [by destruct fuel | done].
  - split; [| split; [intros _; split; [done |] | done]];
      (destruct (w_popen w) as [e | pid];
       [| destruct (monitor _ _ _) as [ | elapsed | fault ];
          [destruct (w_returncode w =? 0) eqn:Hrc | |]]);
      cbn [fst snd]; try done; (split; [done |]);
      eexists; (split; [reflexivity |]); (split; [done |]);
      (split; [by cbn; rewrite ?Hrc |]); (split; [done |]);
      by intros [| fuel] poll_interval now.
Qed.

Lemma execute_task_finishes_or_strands_task_witness :
  BackgroundTask.is_done
    (_execute_task fresh_spawner review_task None sleeper).1 = true
  ∧ BackgroundTask.status
      (_execute_task fresh_spawner review_task None no_temp_dir).1 = RUNNING
  ∧ BackgroundTask.is_done
      (_execute_task fresh_spawner review_task None no_temp_dir).1 = false.
Proof.
  destruct (execute_task_finishes_or_strands_task
              fresh_spawner review_task None sleeper) as (_ & Hdone & _).
  destruct (execute_task_finishes_or_strands_task
              fresh_spawner review_task None no_temp_dir) as (_ & _ & Hraw).
  destruct (Hdone eq_refl) as (_ & Hd & _).
  destruct (Hraw _ eq_refl) as (_ & _ & Hrun & _ & _ & Hnot & _).
  split; [exact Hd |]. split; [exact Hrun | exact Hnot].
Defined.

Lemma wait_done_reaches fuel view poll_interval i k :
  (0 <= poll_interval)%Q →
  (∀ j, (i ≤ j < k)%nat → BackgroundTask.is_done (view j) = false) →
  BackgroundTask.is_done (view k) = true →
  (i ≤ k)%nat → (k - i ≤ fuel)%nat →
  BackgroundTask.wait_done fuel view poll_interval i = Returned k.
Proof.
  intros Hpoll. revert i.
  induction fuel as [| fuel IH]; intros i Hnot Hdone Hik Hfuel.
  - assert (i = k) as -> by lia. simpl. by rewrite Hdone.
  - cbn [BackgroundTask.wait_done].
    destruct (decide (i = k)) as [-> | Hne]; [by rewrite Hdone |].
    rewrite Hnot by lia.
    unfold py_sleep. destruct (Qlt_le_dec poll_interval 0) as [Hneg |].
    + exfalso. exact (Qlt_not_le _ _ Hneg Hpoll).
    + apply IH; [intros j Hj; apply Hnot; lia | done | lia | lia].
Qed.

(** A blocking [get_result] returns at the first look that finds the task
    done: if the [k]-th look is the first one with [is_done], and the poll
    interval is not negative, the call returns the result stored at that
    look (after [k] sleeps). *)
Theorem get_result_returns_at_first_done_look fuel view poll_interval now k r :
  (0 <= poll_interval)%Q →
  (∀ j, (j < k)%nat → BackgroundTask.is_done (view j) = false) →
  BackgroundTask.is_done (view k) = true →
  BackgroundTask._result (view k) = Some r →
  (k ≤ fuel)%nat →
  BackgroundTask.get_result fuel view true poll_interval now = Returned r.
Proof.
  intros Hpoll Hnot Hdone Hres Hfuel. unfold BackgroundTask.get_result.
  rewrite (wait_done_reaches fuel view poll_interval 0 k);
    [by rewrite Hres | done | intros j Hj; apply Hnot; lia | done | lia | lia].
Qed.

Lemma get_result_returns_at_first_done_look_witness :
  let running := BackgroundTask.Build "review_1" "review" (Some 4242) RUNNING
                   100 600 None in
  let r := TaskResult.Build true "OK" None 0 7 COMPLETED None None in
  let finished := BackgroundTask.Build "review_1" "review" (Some 4242)
                    COMPLETED 100 600 (Some r) in
  BackgroundTask.get_result 10
    (λ k, if decide (k < 3)%nat then running else finished) true 1 107
  = Returned r.
Proof.
  intros running r finished.
  apply (get_result_returns_at_first_done_look 10 _ 1%Q 107%Q 3 r).
  - discriminate.
  - intros j Hj. by rewrite decide_True.
  - reflexivity.
  - reflexivity.
  - lia.
Defined.

(** With a negative poll interval a blocking [get_result] does not wait: on a
    task that is not done at the first look it raises the [ValueError] of
    [time.sleep]; on a task that is already done it returns as usual. *)
Theorem get_result_with_negative_poll_interval fuel view poll_interval now :
  (poll_interval < 0)%Q →
  (BackgroundTask.is_done (view 0%nat) = false →
   BackgroundTask.get_result (S fuel) view true poll_interval now
   = Raised (ValueError "sleep length must be non-negative"))
  ∧ (∀ r, BackgroundTask.is_done (view 0%nat) = true →
          BackgroundTask._result (view 0%nat) = Some r →
          BackgroundTask.get_result fuel view true poll_interval now
          = Returned r).
Proof.
  intros Hneg. unfold BackgroundTask.get_result. split.
  - intros Hnot. cbn [BackgroundTask.wait_done]. rewrite Hnot.
    unfold py_sleep. destruct (Qlt_le_dec poll_interval 0) as [| Hpos]; [done |].
    exfalso. exact (Qlt_not_le _ _ Hneg Hpos).
  - intros r Hdone Hres. destruct fuel; simpl; by rewrite Hdone, Hres.
Qed.

Lemma get_result_with_negative_poll_interval_witness :
  BackgroundTask.get_result 1 (λ _, review_task) true (-1) 100
  = Raised (ValueError "sleep length must be non-negative").
Proof.
  apply (get_result_with_negative_poll_interval 0 (λ _, review_task) (-1)%Q 100%Q).
  - reflexivity.
  - reflexivity.
Defined.

(** ** The retry handler as the repository runs it *)

Lemma retry_first_call_only
    {V : Type} (config : Retry.RetryConfig) (func : nat → Retry.call_result V) :
  let run := Retry.retry config func in
  (Retry.invocations run.2 ≤ 1)%nat
  ∧ Retry.slept run.2 = []
  ∧ run.1 ≠ StillRunning
  ∧ (∀ v, run.1 = Returned v →
          (Retry.max_attempts config ≤ 0 ∧ v = None)
          ∨ func 0%nat = Retry.Returns v)
  ∧ (length (Retry.retry_stats run.2) ≤ 1)%nat
  ∧ Forall (λ s, Retry.st_success s = false) (Retry.retry_stats run.2).
Proof.
  intros run. subst run.
  destruct (Z_le_gt_dec (Retry.max_attempts config) 0) as [Hle | Hgt].
  - assert (Retry.retry config func = (Returned None, Retry.empty_trace)) as ->.
    { unfold Retry.retry, Retry.retry_with. simpl.
      destruct (Z.to_nat (Retry.max_attempts config)); simpl;
        by destruct (Z.ltb_spec 0 (Retry.max_attempts config)); [lia |]. }
    simpl. repeat split; try done; try lia.
    intros v [= <-]. by left.
    (* one attempt at least *)
  - assert (1 ≤ Retry.max_attempts config) as H1 by lia.
    destruct (retry_unfold_first_attempt config H1) as (fuel & Hfuel & Hlt).
    unfold Retry.retry, Retry.retry_with. rewrite Hfuel.
    cbn [Retry.attempts_loop Retry.then_ Retry.log Logger.call_on].
    simpl. rewrite Hlt. simpl.
    destruct (func 0%nat) as [v | e]; simpl.
    + repeat split; try done; try lia. intros v' [= <-]. by right.
    + destruct (isinstance_any e _);
        [destruct (0 + 1 >=? Retry.max_attempts config) |]; simpl;
        repeat split; try done; try lia; by repeat constructor.
Qed.

(** [retry] calls the operation at most once and never sleeps: a second
    attempt is never made.  It always ends; a value it returns is [None]
    from a non-positive [max_attempts] or the value of the first call; and
    the statistics of one call are at most one entry, a failure. *)
Theorem retry_makes_at_most_one_call
    {V : Type} (config : Retry.RetryConfig) (func : nat → Retry.call_result V) :
  let run := Retry.retry config func in
  (Retry.invocations run.2 ≤ 1)%nat
  ∧ Retry.slept run.2 = []
  ∧ run.1 ≠ StillRunning
  ∧ (∀ v, run.1 = Returned v →
          (Retry.max_attempts config ≤ 0 ∧ v = None)
          ∨ func 0%nat = Retry.Returns v)
  ∧ (length (Retry.retry_stats run.2) ≤ 1)%nat
  ∧ Forall (λ s, Retry.st_success s = false) (Retry.retry_stats run.2).
Proof. apply retry_first_call_only. Qed.

Lemma count_successes_app (l added : list Retry.stat) :
  Forall (λ s, Retry.st_success s = false) added →
  filter (λ s, Retry.st_success s = true) (l ++ added)
  = filter (λ s, Retry.st_success s = true) l.
Proof.
  intros Hall. rewrite filter_app.
  assert (filter (λ s, Retry.st_success s = true) added = []) as ->;
    [| by rewrite app_nil_r].
  induction Hall as [| s added Hs _ IH]; [done |].
  rewrite filter_cons, IH. rewrite decide_False; [done | congruence].
Qed.

Lemma get_stats_counts (h : RetryHandler.t) :
  RetryHandler.total_retries (RetryHandler.get_stats h)
  = Z.of_nat (length (RetryHandler.retry_stats h))
  ∧ RetryHandler.successful_retries (RetryHandler.get_stats h)
    = Z.of_nat (length (filter (λ s, Retry.st_success s = true)
                               (RetryHandler.retry_stats h)))
  ∧ RetryHandler.failed_retries (RetryHandler.get_stats h)
    = RetryHandler.total_retries (RetryHandler.get_stats h)
      - RetryHandler.successful_retries (RetryHandler.get_stats h).
Proof.
  unfold RetryHandler.get_stats.
  by destruct (RetryHandler.retry_stats h).
Qed.

(** The statistics of a handler.  [get_stats] splits the total into
    successes and failures, both non-negative; [reset_stats] brings all
    three to zero; and a call of [retry] never adds a success: it leaves
    [successful_retries] as it was and adds at most one to the total. *)
Theorem retry_statistics
    {V : Type} (h : RetryHandler.t) (func : nat → Retry.call_result V) :
  let before := RetryHandler.get_stats h in
  let after := RetryHandler.get_stats (RetryHandler.retry h func).2 in
  RetryHandler.total_retries before
  = RetryHandler.successful_retries before + RetryHandler.failed_retries before
  ∧ 0 ≤ RetryHandler.successful_retries before
  ∧ 0 ≤ RetryHandler.failed_retries before
  ∧ RetryHandler.get_stats (RetryHandler.reset_stats h)
    = RetryHandler.Build_stats 0 0 0 None
  ∧ RetryHandler.successful_retries after
    = RetryHandler.successful_retries before
  ∧ RetryHandler.total_retries before ≤ RetryHandler.total_retries after
    ≤ RetryHandler.total_retries before + 1.
Proof.
  intros before after. subst before after.
  destruct (get_stats_counts h) as (Ht & Hs & Hf).
  pose proof (length_filter (λ s, Retry.st_success s = true)
                (RetryHandler.retry_stats h)) as Hlen.
  split; [lia |]. split; [lia |]. split; [lia |]. split; [done |].
  destruct (get_stats_counts (RetryHandler.retry h func).2) as (Ht' & Hs' & _).
  rewrite Ht', Hs', Ht, Hs. unfold RetryHandler.retry.
  destruct (retry_first_call_only (RetryHandler.config h) func)
    as (_ & _ & _ & _ & Hone & Hall).
  destruct (Retry.retry (RetryHandler.config h) func) as [out tr].
  cbn [fst snd RetryHandler.retry_stats] in *.
  rewrite count_successes_app by done. rewrite length_app. lia.
Qed.








(** ** The health checker as the repository runs it *)

(** What [check_health] answers, by what psutil says.  For a process that
    does not exist the method raises: the clause for [NoSuchProcess] itself
    calls [logger.warning].  Any other failing psutil call gives a NOT_FOUND
    report.  For a process that can be measured the report is HEALTHY, or
    NOT_FOUND with the [AttributeError] as its message; TERMINATED,
    HIGH_MEMORY and HUNG are never reported. *)
Theorem check_health_outcomes
    (self : Health.HealthChecker) (pr : Health.probe) (ck : Health.clock)
    (p : Z) :
  match pr with
  | Health.NoSuchProcess =>
      Health.check_health self pr ck p
      = Raised (AttributeError "'Logger' object has no attribute 'warning'")
  | Health.ProbeFails e =>
      Health.check_health self pr ck p
      = Returned (Health.Build_HealthReport p Health.NOT_FOUND 0 0 0 0
                    (Health.MsgError e))
  | Health.Sample _ _ _ =>
      ∃ r, Health.check_health self pr ck p = Returned r
           ∧ (Health.status r = Health.HEALTHY
              ∨ r = Health.Build_HealthReport p Health.NOT_FOUND 0 0 0 0
                      (Health.MsgError
                         (AttributeError
                            "'Logger' object has no attribute 'warning'")))
  end.
Proof.
  destruct pr as [| e | cpu rss running]; [done | done |].
  unfold Health.check_health, Health.check_health_with, Health.check_body.
  repeat case_match; simplify_eq; eexists; (split; [reflexivity |]);
    unfold Health.logged in *; simpl in *; simplify_eq; auto.
Qed.

Lemma should_kill_answers self pr ck p :
  match HealthOps.should_kill self pr ck p with
  | Returned (kill, reason) =>
      kill = false
      ∧ (reason = HealthOps.ReasonHealthy ∨ reason = HealthOps.ReasonNotFound)
  | Raised e =>
      pr = Health.NoSuchProcess
      ∧ e = AttributeError "'Logger' object has no attribute 'warning'"
  | StillRunning => False
  end.
Proof.
  unfold HealthOps.should_kill, HealthOps.should_kill_with.
  fold (Health.check_health self pr ck p).
  pose proof (check_health_never_reports_hung self ck p pr) as Hst.
  destruct pr as [| e | cpu rss running].
  - done.
  - simpl. auto.
  - destruct (Health.check_health self _ ck p) as [r | e | ] eqn:Hr.
    + destruct (Hst r eq_refl) as [-> | ->]; simpl; auto.
    + exfalso. revert Hr.
      unfold Health.check_health, Health.check_health_with, Health.check_body,
        Health.logged, Health.on_error.
      by repeat case_match.
    + exfalso. revert Hr.
      unfold Health.check_health, Health.check_health_with, Health.check_body,
        Health.logged, Health.on_error.
      by repeat case_match.
Qed.

(** [should_kill] never recommends a kill: its answer is always [False]
    ("healthy" or "not found"), also for a process that is hung or over the
    memory limit; for a process that does not exist it raises the
    [AttributeError] of [check_health]. *)
Theorem should_kill_never_says_kill
    (self : Health.HealthChecker) (pr : Health.probe) (ck : Health.clock)
    (p : Z) :
  match HealthOps.should_kill self pr ck p with
  | Returned (kill, reason) =>
      kill = false
      ∧ (reason = HealthOps.ReasonHealthy ∨ reason = HealthOps.ReasonNotFound)
  | Raised e =>
      pr = Health.NoSuchProcess
      ∧ e = AttributeError "'Logger' object has no attribute 'warning'"
  | StillRunning => False
  end.
Proof. apply should_kill_answers. Qed.

(** [cleanup] forgets one process and nothing else: afterwards the process
    has no start and no activity time, every other process keeps its
    entries, cleaning up a process that was never registered changes
    nothing (no [KeyError]), and registering a new process and cleaning it
    up again gives back the checker as it was. *)
Theorem cleanup_forgets_one_process (self : Health.HealthChecker) (p : Z) :
  (Health._start_time (HealthOps.cleanup self p) !! p = None
   ∧ Health._last_activity (HealthOps.cleanup self p) !! p = None)
  ∧ (∀ q, q ≠ p →
          Health._start_time (HealthOps.cleanup self p) !! q
          = Health._start_time self !! q
          ∧ Health._last_activity (HealthOps.cleanup self p) !! q
            = Health._last_activity self !! q)
  ∧ (Health._start_time self !! p = None →
     Health._last_activity self !! p = None →
     HealthOps.cleanup self p = self
     ∧ ∀ now, HealthOps.cleanup (Health.register_process self p now) p = self).
Proof.
  split; [| split].
  - simpl. by rewrite !lookup_delete_eq.
  - intros q Hq. simpl. by rewrite !lookup_delete_ne.
  - intros Hs Hl. destruct self as [a b c d la st]. simpl in *.
    unfold HealthOps.cleanup, Health.register_process. simpl.
    split; [by rewrite !delete_id |].
    intros now. by rewrite !delete_insert_id.
Qed.

Lemma cleanup_forgets_one_process_witness :
  HealthOps.cleanup (Health.register_process Health.default_checker 4242 7) 4242
  = Health.default_checker
  ∧ HealthOps.cleanup Health.default_checker 4242 = Health.default_checker.
Proof.
  destruct (cleanup_forgets_one_process Health.default_checker 4242)
    as (_ & _ & Hfresh).
  destruct (Hfresh eq_refl eq_refl) as [Hnoop Hround].
  split; [apply Hround | exact Hnoop].
Defined.

(** The times in a HEALTHY report: for a process registered at [t0] whose
    last activity was recorded at [t1], running, within the memory limit and
    idle for no longer than the activity timeout, [check_health] reports
    HEALTHY with the runtime counted from [t0] and the idle time counted
    from [t1], together with the CPU and memory readings. *)
Theorem check_health_counts_from_registration
    (self : Health.HealthChecker) (p : Z) (t0 t1 cpu : Q) (rss : Z)
    (ck : Health.clock) :
  let watched :=
    HealthOps.record_activity (Health.register_process self p t0) p t1 in
  let mem := (inject_Z rss / inject_Z (1024 * 1024))%Q in
  Qltb (inject_Z (Health.memory_limit_mb self)) mem = false →
  Qltb (inject_Z (Health.activity_timeout self)) (Health.t_activity ck - t1)
  = false →
  Health.check_health watched (Health.Sample cpu rss true) ck p
  = Returned
      (Health.Build_HealthReport p Health.HEALTHY cpu mem
         (Health.t_runtime ck - t0) (Health.t_activity ck - t1)
         Health.MsgHealthy).
Proof.
  intros watched mem Hmem Hidle. subst watched mem.
  unfold Health.check_health, Health.check_health_with, Health.check_body.
  simpl. rewrite lookup_insert_eq, lookup_insert_eq. simpl.
  by rewrite Hmem, Hidle.
Qed.

Lemma check_health_counts_from_registration_witness :
  Health.check_health
    (HealthOps.record_activity
       (Health.register_process Health.default_checker 4242 0) 4242 1900)
    idle_process (Health.Build_clock 2000 2000 2000) 4242
  = Returned
      (Health.Build_HealthReport 4242 Health.HEALTHY 0
         (inject_Z (100 * 1024 * 1024) / inject_Z (1024 * 1024))
         (2000 - 0) (2000 - 1900) Health.MsgHealthy).
Proof.
  apply (check_health_counts_from_registration
           Health.default_checker 4242 0 1900 0 (100 * 1024 * 1024)
           (Health.Build_clock 2000 2000 2000)); reflexivity.
Defined.

Lemma first_pattern_in_spec patterns output_lower :
  match HealthOps.first_pattern_in patterns output_lower with
  | Some p =>
      ∃ before after,
        patterns = before ++ p :: after
        ∧ py_in (lower p) output_lower = true
        ∧ Forall (λ q, py_in (lower q) output_lower = false) before
  | None => Forall (λ q, py_in (lower q) output_lower = false) patterns
  end.
Proof.
  induction patterns as [| q ps IH]; simpl; [done |].
  destruct (py_in (lower q) output_lower) eqn:Hq.
  - by exists [], ps.
  - destruct (HealthOps.first_pattern_in ps output_lower) as [p |].
    + destruct IH as (before & after & -> & Hp & Hall).
      exists (q :: before), after. by repeat constructor.
    + by constructor.
Qed.

Lemma first_pattern_in_any patterns output_lower :
  any_pattern_in patterns output_lower
  = bool_decide (is_Some (HealthOps.first_pattern_in patterns output_lower)).
Proof.
  induction patterns as [| q ps IH]; simpl; [done |].
  destruct (py_in (lower q) output_lower); [| done].
  symmetry. by apply bool_decide_eq_true.
Qed.

(** [detect_critical_errors] gives the first pattern of the list that occurs
    in the output, case-insensitively, and [None] exactly when no pattern
    occurs.  It agrees with the classifier: an error text in which it finds
    one of the classifier's critical patterns is classified CRITICAL, for
    every exit code. *)
Theorem detect_critical_errors_finds_first (output : string) (patterns : list string) :
  match HealthOps.detect_critical_errors output patterns with
  | Some p =>
      ∃ before after,
        patterns = before ++ p :: after
        ∧ py_in (lower p) (lower output) = true
        ∧ Forall (λ q, py_in (lower q) (lower output) = false) before
  | None => Forall (λ q, py_in (lower q) (lower output) = false) patterns
  end
  ∧ (∀ c st,
       st ≠ TIMEOUT →
       is_Some (HealthOps.detect_critical_errors output critical_patterns) →
       _classify_error_severity c output st = CRITICAL).
Proof.
  split; [apply first_pattern_in_spec |].
  intros c st Hst Hsome. unfold _classify_error_severity.
  destruct (decide (st = TIMEOUT)); [done |].
  rewrite first_pattern_in_any.
  by rewrite bool_decide_true.
Qed.

Lemma detect_critical_errors_finds_first_witness :
  HealthOps.detect_critical_errors "fatal: DISK FULL, permission denied"
    critical_patterns = Some "Permission denied"
  ∧ _classify_error_severity 1 "fatal: DISK FULL, permission denied" FAILED
    = CRITICAL.
Proof.
  split; [reflexivity |].
  apply (detect_critical_errors_finds_first
           "fatal: DISK FULL, permission denied" critical_patterns);
    [discriminate | by eexists].
Defined.

(** ** Temporary files and process trees *)

Lemma read_and_cleanup_missing (disk : gmap string file) path keep_file :
  disk !! path = None →
  _read_and_cleanup disk (Some path) keep_file = ("", disk).
Proof.
  intros Hd. unfold _read_and_cleanup. rewrite Hd. by case_bool_decide.
Qed.

(** The case analysis of [_read_and_cleanup] on a path that names a file. *)
Ltac read_cases disk path :=
  unfold _read_and_cleanup;
  case_bool_decide; [try done |];
  destruct (disk !! path) eqn:Hfile; [| try done];
  match goal with
  | |- context [f_read ?f] =>
      destruct (f_read f) eqn:Hread, (f_unlink f) eqn:Hunlink
  end.

(** [_read_and_cleanup] touches one file only.  Other paths are as before;
    with [keep_file] the disk is unchanged; a text that is not empty was read
    from the file, and without [keep_file] that file is then gone; a file
    that can be unlinked is gone afterwards whether or not it could be read;
    and a path that is missing, or [None], gives the empty text and leaves
    the disk alone, so that a second call after a removal gives "". *)
Theorem read_and_cleanup_touches_one_file
    (disk : gmap string file) (path : string) (keep_file : bool) :
  let run := _read_and_cleanup disk (Some path) keep_file in
  (∀ q, q ≠ path → run.2 !! q = disk !! q)
  ∧ (keep_file = true → run.2 = disk)
  ∧ (run.1 ≠ "" →
     ∃ f, disk !! path = Some f ∧ f_read f = inr run.1
          ∧ (keep_file = false → run.2 !! path = None))
  ∧ (∀ f, keep_file = false → disk !! path = Some f → path ≠ "" →
          f_unlink f = None → run.2 !! path = None)
  ∧ (disk !! path = None → run = ("", disk))
  ∧ (run.2 !! path = None →
     ∀ keep_again, _read_and_cleanup run.2 (Some path) keep_again = ("", run.2))
  ∧ _read_and_cleanup disk None keep_file = ("", disk).
Proof.
  intros run. subst run.
  split; [| split; [| split; [| split; [| split; [| split]]]]].
  - intros q Hq. read_cases disk path; destruct keep_file; cbn [fst snd];
      by rewrite ?lookup_delete_ne.
  - intros ->. by read_cases disk path.
  - read_cases disk path; destruct keep_file; cbn [fst snd]; try done;
      intros _; eexists; (split; [done |]); (split; [done |]);
      intros; by rewrite ?lookup_delete_eq.
  - intros f -> Hf Hpath Hu. unfold _read_and_cleanup.
    rewrite bool_decide_false by done. rewrite Hf, Hu.
    destruct (f_read f); cbn [fst snd]; by rewrite lookup_delete_eq.
  - apply read_and_cleanup_missing.
  - intros Hnone keep_again. by apply read_and_cleanup_missing.
  - done.
Qed.

Lemma read_and_cleanup_touches_one_file_witness :
  let disk : gmap string file :=
    {[ "review_1.stdout" := Build_file (inr "OK") None ]} in
  _read_and_cleanup disk (Some "review_1.stdout") false = ("OK", ∅)
  ∧ _read_and_cleanup
      (_read_and_cleanup disk (Some "review_1.stdout") false).2
      (Some "review_1.stdout") false
    = ("", (_read_and_cleanup disk (Some "review_1.stdout") false).2).
Proof.
  intros disk. split.
  - unfold disk, _read_and_cleanup. simpl.
    rewrite lookup_singleton_eq. simpl. by rewrite delete_singleton_eq.
  - destruct (read_and_cleanup_touches_one_file disk "review_1.stdout" false)
      as (_ & _ & _ & Hgone & _ & Hagain & _).
    apply Hagain.
    by apply (Hgone (Build_file (inr "OK") None)).
Defined.

(** The second [try] of the POSIX branch, which signals the single process:
    no error leaves it, and the SIGKILL follows a SIGTERM that was taken. *)
Lemma kill_single_process_is_safe (kw : kill_world) (pid : Z) :
  ∃ calls,
    try_except
      (and_then (made (Kill pid SIGTERM) (kw_kill kw SIGTERM))
         (if kw_alive_after_kill kw
          then made (Kill pid SIGKILL) (kw_kill kw SIGKILL)
          else done_nothing))
      ["ProcessLookupError"; "OSError"] done_nothing
    = (None, calls)
    ∧ (calls = [Kill pid SIGTERM]
       ∨ (calls = [Kill pid SIGTERM; Kill pid SIGKILL]
          ∧ kw_kill kw SIGTERM = None ∧ kw_alive_after_kill kw = true)).
Proof.
  unfold made, and_then, try_except, done_nothing.
  destruct (kw_kill kw SIGTERM) as [[| |] |];
    destruct (kw_alive_after_kill kw);
    destruct (kw_kill kw SIGKILL) as [[| |] |];
    simpl; eexists; (split; [reflexivity |]); auto.
Qed.

(** [_kill_process_tree] is safe to call on anything: no error of the
    operating system leaves it, for [None] it does nothing, and it makes at
    most four calls.  It asks before it forces: on POSIX the first call is a
    SIGTERM; a SIGKILL goes to the process group only after the group took
    the SIGTERM and the process was still alive, and to the single process
    only after that process took the SIGTERM and was still alive. *)
Theorem kill_process_tree_is_safe (kw : kill_world) (process : option Z) :
  let run := _kill_process_tree kw process in
  run.1 = None
  ∧ (process = None → run.2 = [])
  ∧ (length run.2 ≤ 4)%nat
  ∧ (kw_nt kw = false →
     match run.2 with
     | [] => process = None
     | Killpg _ SIGTERM :: _ | Kill _ SIGTERM :: _ => True
     | _ => False
     end
     ∧ (∀ pgid, Killpg pgid SIGKILL ∈ run.2 →
                kw_killpg kw SIGTERM = None ∧ kw_alive_after_killpg kw = true)
     ∧ (∀ pid, Kill pid SIGKILL ∈ run.2 →
               kw_kill kw SIGTERM = None ∧ kw_alive_after_kill kw = true)).
Proof.
  intros run. subst run. unfold _kill_process_tree.
  destruct process as [pid |].
  2: { simpl. split; [done |]. split; [done |]. split; [lia |].
       intros _. split; [done |].
       split; intros ? Hin; by apply elem_of_nil in Hin. }
  destruct (kw_nt kw) eqn:Hnt.
  - unfold made, try_except, done_nothing. cbn [fst snd].
    destruct (kw_popen_kill kw) as [[| |] |]; simpl;
      (split; [done |]); (split; [done |]); (split; [lia |]);
      intros; congruence.
  - destruct (kill_single_process_is_safe kw pid) as (calls & -> & Hcalls).
    unfold made, and_then, try_except, done_nothing.
    destruct Hcalls as [-> | (-> & Hkt & Hka)];
      destruct (kw_getpgid kw) as [[| |] | pgid];
      destruct (kw_killpg kw SIGTERM) as [[| |] |] eqn:Hgt;
      destruct (kw_alive_after_killpg kw) eqn:Hga;
      destruct (kw_killpg kw SIGKILL) as [[| |] |];
      simpl; (split; [done |]); (split; [done |]); (split; [lia |]);
      intros _; (split; [done |]);
      split; intros ? Hin;
      repeat (apply elem_of_cons in Hin as [Hin | Hin]; [by simplify_eq |]);
      by apply elem_of_nil in Hin.
Qed.

Lemma kill_process_tree_is_safe_witness :
  _kill_process_tree gone_process (Some 4242) = (None, [Kill 4242 SIGTERM])
  ∧ _kill_process_tree gone_process None = (None, []).
Proof.
  split; [reflexivity |].
  destruct (kill_process_tree_is_safe gone_process None) as (He & Hnone & _).
  destruct (_kill_process_tree gone_process None) as [e calls].
  simpl in *. by rewrite He, Hnone.
Defined.

(** ** [should_retry] and the first exception *)

(** What [retry] does with the exception of the first call, told by
    [should_retry].  An exception that [should_retry] rejects leaves
    [retry] unchanged and is not counted.  One that it accepts is raised
    again, and counted as one failed entry, when [max_attempts] is 1; with
    more attempts allowed the [AttributeError] of the logging line takes
    its place. *)
Theorem should_retry_tells_the_first_exception
    {V : Type} (h : RetryHandler.t) (func : nat → Retry.call_result V) (e : exn) :
  1 ≤ Retry.max_attempts (RetryHandler.config h) →
  func 0%nat = Retry.Raises e →
  let run := Retry.retry (RetryHandler.config h) func in
  (RetryHandler.should_retry h e = false →
   run = (Raised e, Retry.Build_trace 1 [] []))
  ∧ (RetryHandler.should_retry h e = true →
     Retry.max_attempts (RetryHandler.config h) = 1 →
     run = (Raised e,
            Retry.Build_trace 1 []
              [Retry.Build_stat 1 false (Some (exn_text e))]))
  ∧ (RetryHandler.should_retry h e = true →
     2 ≤ Retry.max_attempts (RetryHandler.config h) →
     run = (Raised (AttributeError "'Logger' object has no attribute 'warning'"),
            Retry.Build_trace 1 [] [])).
Proof.
  intros Hmax Hf run. subst run. unfold RetryHandler.should_retry.
  split; [| split].
  - intros Hno. by apply retry_propagates_other_exceptions.
  - intros Hyes Hone.
    unfold Retry.retry, Retry.retry_with. rewrite Hone. simpl.
    by rewrite !Hone, Hf, Hyes.
  - intros Hyes Hmore. by apply (retry_fails_to_retry _ _ e).
Qed.

Lemma should_retry_tells_the_first_exception_witness :
  Retry.retry
    (Retry.Build_RetryConfig 1 1 60 Retry.EXPONENTIAL 2 ["OSError"] None)
    (λ _, Retry.Raises (Exn "FileNotFoundError" ["OSError"] "no such file")
       : Retry.call_result unit)
  = (Raised (Exn "FileNotFoundError" ["OSError"] "no such file"),
     Retry.Build_trace 1 []
       [Retry.Build_stat 1 false (Some "no such file")]).
Proof.
  apply (should_retry_tells_the_first_exception
           (RetryHandler.Build
              (Retry.Build_RetryConfig 1 1 60 Retry.EXPONENTIAL 2 ["OSError"]
                 None) [])
           (λ _, Retry.Raises (Exn "FileNotFoundError" ["OSError"] "no such file")
              : Retry.call_result unit)
           (Exn "FileNotFoundError" ["OSError"] "no such file"));
    [simpl; lia | reflexivity | reflexivity | reflexivity].
Defined.

Lemma retry_makes_at_most_one_call_witness :
  let func : nat → Retry.call_result Z := λ _, Retry.Returns (Some 7) in
  (Retry.retry Retry.default_config func).1 = Returned (Some 7)
  ∧ ((Retry.max_attempts Retry.default_config ≤ 0 ∧ Some 7 = None)
     ∨ func 0%nat = Retry.Returns (Some 7)).
Proof.
  intros func. split; [reflexivity |].
  apply (retry_makes_at_most_one_call Retry.default_config func).
  reflexivity.
Defined.
